(** * SONiC state management core ([lib/sonic_state.py])

    A shallow embedding of the component registry, the two state adapters
    (live filesystem root, tar.gz backup), the special-component handlers and
    the four [StateManager] operations, followed by the properties of the
    specification that were checked against them.

    Modelling conventions.
    - [bytes] is [list byte]; Python truthiness of an [Optional[bytes]]
      ([if data:]) is [py_bool]: [None] and [b''] are both false.
    - [str] values that are decoded file contents are lists of Unicode code
      points ([text]); [bytes.decode()] and [str.encode()] are the strict
      UTF-8 codec, which raises on malformed input.
    - A filesystem root is the tree found under [root_path] ([None] when
      nothing exists there).  File nodes carry their content and permission
      bits; ownership, timestamps and directory permission bits are not
      tracked.  Source and destination roots are distinct, non-overlapping
      trees, and the backup file lives outside both.
    - The libraries the code calls but does not define ([tarfile] packing and
      opening of a directory blob, [json], the [date] and [hostname] tools,
      the process umask) are the fields of the class [Platform]; nothing is
      assumed about them.
    - An uncaught Python exception is the outcome [Raise]; every effectful
      function returns the store it leaves behind next to its outcome. *)

From stdpp Require Import gmap strings list.
From Stdlib Require Import ZArith NArith Strings.Byte Lia.
From Stdlib Require Ascii.

#[local] Set Warnings "-register-all".

(** ** Outcomes and the store-passing monad *)

Inductive exn :=
| PermissionError | RuntimeError | AttributeError
| UnicodeDecodeError | UnicodeEncodeError | ReadError | JSONDecodeError
| FileExistsError | FileNotFoundError | NotADirectoryError | IsADirectoryError.

Inductive outcome (A : Type) :=
| Ok (a : A)
| Raise (e : exn).
Arguments Ok {A} a.
Arguments Raise {A} e.

(** [M St A]: a computation over a store [St] that returns an [A] or raises,
    and in both cases leaves a store behind. *)
Definition M (St A : Type) : Type := St → outcome A * St.

Definition ret {St A} (a : A) : M St A := λ s, (Ok a, s).
Definition raise {St A} (e : exn) : M St A := λ s, (Raise e, s).
Definition bind {St A B} (m : M St A) (k : A → M St B) : M St B :=
  λ s, match m s with
       | (Ok a, s') => k a s'
       | (Raise e, s') => (Raise e, s')
       end.

Declare Scope py_scope.
Delimit Scope py_scope with py.
Notation "x <~ m ;; k" := (bind m (λ x, k))
  (at level 100, m at next level, right associativity) : py_scope.
Notation "m ;;; k" := (bind m (λ _, k))
  (at level 100, right associativity) : py_scope.
#[local] Open Scope py_scope.

(** [for x in xs: acc = body(acc, x)] *)
Fixpoint for_fold {St A X} (body : A → X → M St A) (acc : A) (xs : list X)
  : M St A :=
  match xs with
  | [] => ret acc
  | x :: xs' => acc' <~ body acc x ;; for_fold body acc' xs'
  end.

(** [for x in xs: body(x)] *)
Fixpoint for_each {St X} (body : X → M St unit) (xs : list X) : M St unit :=
  match xs with
  | [] => ret tt
  | x :: xs' => body x ;;; for_each body xs'
  end.

(** ** Bytes, text and the UTF-8 codec *)

Abbreviation bytes := (list byte).
Abbreviation text := (list N).

Definition b (s : string) : bytes := String.list_byte_of_string s.

(** Truthiness of an [Optional[bytes]]. *)
Definition py_bool (data : option bytes) : bool :=
  match data with
  | Some (_ :: _) => true
  | _ => false
  end.

(** The bytes held by a truthy [Optional[bytes]]. *)
Definition the (data : option bytes) : bytes := default [] data.

(** Truthiness of an [Optional[str]]. *)
Definition py_str_bool (s : option string) : bool :=
  match s with
  | Some (String _ _) => true
  | _ => false
  end.

Definition between (lo hi x : N) : bool := ((lo <=? x) && (x <=? hi))%N.
Definition cont (x : N) : bool := between 0x80 0xBF x.

Definition second_of_3 (x0 x1 : N) : bool :=
  if (x0 =? 0xE0)%N then between 0xA0 0xBF x1
  else if (x0 =? 0xED)%N then between 0x80 0x9F x1
  else cont x1.

Definition second_of_4 (x0 x1 : N) : bool :=
  if (x0 =? 0xF0)%N then between 0x90 0xBF x1
  else if (x0 =? 0xF4)%N then between 0x80 0x8F x1
  else cont x1.

(** [bytes.decode()]: strict UTF-8; [None] is [UnicodeDecodeError]. *)
Fixpoint utf8_decode (bs : bytes) : option text :=
  match bs with
  | [] => Some []
  | b0 :: r0 =>
    let x0 := Byte.to_N b0 in
    if (x0 <? 0x80)%N then cons x0 <$> utf8_decode r0 else
    match r0 with
    | [] => None
    | b1 :: r1 =>
      let x1 := Byte.to_N b1 in
      if between 0xC2 0xDF x0 then
        if cont x1
        then cons ((x0 - 0xC0) * 64 + (x1 - 0x80))%N <$> utf8_decode r1
        else None
      else
      match r1 with
      | [] => None
      | b2 :: r2 =>
        let x2 := Byte.to_N b2 in
        if between 0xE0 0xEF x0 then
          if second_of_3 x0 x1 && cont x2
          then cons (((x0 - 0xE0) * 64 + (x1 - 0x80)) * 64 + (x2 - 0x80))%N
                 <$> utf8_decode r2
          else None
        else
        match r2 with
        | [] => None
        | b3 :: r3 =>
          let x3 := Byte.to_N b3 in
          if between 0xF0 0xF4 x0 && second_of_4 x0 x1 && cont x2 && cont x3
          then cons ((((x0 - 0xF0) * 64 + (x1 - 0x80)) * 64 + (x2 - 0x80)) * 64
                     + (x3 - 0x80))%N <$> utf8_decode r3
          else None
        end
      end
    end
  end.

Definition byte_of (n : N) : byte := default "000"%byte (Byte.of_N n).

(** One code point of [str.encode()]; [None] is [UnicodeEncodeError]
    (a surrogate, which UTF-8 refuses). *)
Definition utf8_encode_cp (c : N) : option bytes :=
  if (c <? 0x80)%N then Some [byte_of c]
  else if (c <? 0x800)%N then
    Some [byte_of (0xC0 + c / 64); byte_of (0x80 + c mod 64)]%N
  else if (c <? 0x10000)%N then
    if between 0xD800 0xDFFF c then None
    else Some [byte_of (0xE0 + c / 4096); byte_of (0x80 + (c / 64) mod 64);
               byte_of (0x80 + c mod 64)]%N
  else if (c <? 0x110000)%N then
    Some [byte_of (0xF0 + c / 262144); byte_of (0x80 + (c / 4096) mod 64);
          byte_of (0x80 + (c / 64) mod 64); byte_of (0x80 + c mod 64)]%N
  else None.

Fixpoint utf8_encode (t : text) : option bytes :=
  match t with
  | [] => Some []
  | c :: t' =>
    match utf8_encode_cp c, utf8_encode t' with
    | Some bs, Some bs' => Some (bs ++ bs')
    | _, _ => None
    end
  end.

Definition decode {St} (data : bytes) : M St text :=
  match utf8_decode data with
  | Some t => ret t
  | None => raise UnicodeDecodeError
  end.

Definition encode {St} (t : text) : M St bytes :=
  match utf8_encode t with
  | Some bs => ret bs
  | None => raise UnicodeEncodeError
  end.

(** The code points of an ASCII literal. *)
Definition lit (s : string) : text := Byte.to_N <$> String.list_byte_of_string s.

(** Line boundaries of [str.splitlines()]. *)
Definition is_linebreak (c : N) : bool :=
  bool_decide (c ∈ [0x0A; 0x0D; 0x0B; 0x0C; 0x1C; 0x1D; 0x1E; 0x85;
                    0x2028; 0x2029]%N).

(** [str.splitlines()]: [cur] is the current line, reversed. *)
Fixpoint splitlines_from (cur : text) (s : text) : list text :=
  match s with
  | [] => match cur with [] => [] | _ => [rev cur] end
  | c :: s' =>
    if is_linebreak c then
      rev cur ::
        match s' with
        | c' :: s'' =>
          if ((c =? 0x0D) && (c' =? 0x0A))%N
          then splitlines_from [] s''
          else splitlines_from [] s'
        | [] => splitlines_from [] s'
        end
    else splitlines_from (c :: cur) s'
  end.

Definition splitlines (s : text) : list text := splitlines_from [] s.

(** [line.startswith(prefix)] *)
Fixpoint startswith (prefix line : text) : bool :=
  match prefix, line with
  | [], _ => true
  | p :: prefix', c :: line' => (p =? c)%N && startswith prefix' line'
  | _ :: _, [] => false
  end.

(** ** Paths *)

(** The character ['/']. *)
Definition slash : Ascii.ascii := Ascii.ascii_of_nat 47.

(** [s.lstrip('/')] *)
Fixpoint lstrip_slash (s : string) : string :=
  match s with
  | String c s' => if Ascii.eqb c slash then lstrip_slash s' else s
  | EmptyString => s
  end.

Fixpoint split_slash (cur : string) (s : string) : list string :=
  match s with
  | EmptyString => [cur]
  | String c s' =>
    if Ascii.eqb c slash then cur :: split_slash "" s'
    else split_slash (cur +:+ String c "") s'
  end.

(** The components [pathlib] keeps of a relative path: empty and ["."]
    components are dropped. *)
Definition path_parts (s : string) : list string :=
  filter (λ p, p ≠ "" ∧ p ≠ ".") (split_slash "" s).

(** ** The filesystem tree *)

Inductive node :=
| File (data : bytes) (mode : Z)
| Dir (entries : list (string * node)).

Abbreviation fs := (option node).

Fixpoint alist_lookup {A} (k : string) (l : list (string * A)) : option A :=
  match l with
  | [] => None
  | (k', v) :: l' => if String.eqb k k' then Some v else alist_lookup k l'
  end.

(** Replace the entry of [k] in place, or append a new one. *)
Fixpoint alist_insert {A} (k : string) (v : A) (l : list (string * A))
  : list (string * A) :=
  match l with
  | [] => [(k, v)]
  | (k', v') :: l' =>
    if String.eqb k k' then (k, v) :: l' else (k', v') :: alist_insert k v l'
  end.

Definition alist_set {A} (k : string) (o : option A) (l : list (string * A))
  : list (string * A) :=
  match o with
  | Some v => alist_insert k v l
  | None => l
  end.

Fixpoint lookup_path (p : list string) (t : fs) : fs :=
  match p with
  | [] => t
  | c :: p' =>
    match t with
    | Some (Dir es) => lookup_path p' (alist_lookup c es)
    | _ => None
    end
  end.

(** Run [leaf] on the node at [p].  With [create], missing directories on the
    way are made; a regular file on the way is [NotADirectoryError]. *)
Fixpoint at_path (create : bool) (p : list string) (leaf : M fs unit)
  : M fs unit :=
  λ t,
  match p with
  | [] => leaf t
  | c :: p' =>
    match t with
    | Some (File _ _) => (Raise NotADirectoryError, t)
    | Some (Dir es) =>
      let '(r, child) := at_path create p' leaf (alist_lookup c es) in
      (r, Some (Dir (alist_set c child es)))
    | None =>
      if create then
        let '(r, child) := at_path create p' leaf None in
        (r, Some (Dir (alist_set c child [])))
      else (Raise FileNotFoundError, None)
    end
  end.

(** [Path.mkdir(parents=True, exist_ok=True)] *)
Definition mkdir_p (p : list string) : M fs unit :=
  at_path true p
    (λ t, match t with
          | None => (Ok tt, Some (Dir []))
          | Some (Dir _) => (Ok tt, t)
          | Some (File _ _) => (Raise FileExistsError, t)
          end).

(** [Path.write_bytes(data)]: an existing file keeps its permission bits, a
    new one gets [new_mode]. *)
Definition write_bytes (new_mode : Z) (p : list string) (data : bytes)
  : M fs unit :=
  at_path false p
    (λ t, match t with
          | None => (Ok tt, Some (File data new_mode))
          | Some (File _ m) => (Ok tt, Some (File data m))
          | Some (Dir _) => (Raise IsADirectoryError, t)
          end).

(** [Path.chmod(mode)] *)
Definition chmod (p : list string) (mode : Z) : M fs unit :=
  at_path false p
    (λ t, match t with
          | None => (Raise FileNotFoundError, t)
          | Some (File d _) => (Ok tt, Some (File d mode))
          | Some (Dir _) => (Ok tt, t)
          end).

(** [TarFile.extractall]: the member tree [n] is laid over what exists, entry
    by entry in member order; a regular file replaces a regular file, a
    directory merges into a directory, and a clash of kinds raises, leaving
    what was extracted before it. *)
Fixpoint extract (n : node) : M fs unit :=
  λ t,
  match n with
  | File d m =>
    match t with
    | Some (Dir _) => (Raise IsADirectoryError, t)
    | _ => (Ok tt, Some (File d m))
    end
  | Dir es =>
    let go :=
      fix go (es : list (string * node)) (cur : list (string * node))
        : outcome unit * fs :=
        match es with
        | [] => (Ok tt, Some (Dir cur))
        | (name, child) :: rest =>
          let '(r, child') := extract child (alist_lookup name cur) in
          let cur' := alist_set name child' cur in
          match r with
          | Ok _ => go rest cur'
          | Raise e => (Raise e, Some (Dir cur'))
          end
        end in
    match t with
    | Some (File _ _) => (Raise FileExistsError, t)
    | Some (Dir old) => go es old
    | None => go es []
    end
  end.

(** ** External libraries and tools *)

Inductive json :=
| JNull
| JBool (v : bool)
| JNum (v : Z)
| JStr (v : string)
| JList (vs : list json)
| JObj (kvs : list (string * json)).

Class Platform := {
  (** [tar.add(path, arcname='.')] of the tree at [path], read back as bytes *)
  tar_add : node → bytes;
  (** [tarfile.open(tmp, 'r')] of a blob: its member tree, or [ReadError] *)
  tar_open : bytes → option node;
  (** [json.loads]; [None] is [JSONDecodeError] *)
  json_loads : text → option json;
  (** [json.dumps(_, indent=2).encode()] *)
  json_dumps : json → bytes;
  (** output of [date -Is] and of [hostname], stripped *)
  date_Is : string;
  hostname : string;
  (** permission bits of a file created by [write_bytes] (0o666 less umask) *)
  new_file_mode : Z
}.

(** ** The component registry *)

Record StateComponent := {
  name : string;
  path : string;
  component_type : string;            (* 'file', 'directory', 'user_data' *)
  required : bool;                    (* default True *)
  preserve_permissions : bool;        (* default True *)
  special_handler : option string     (* default None *)
}.

Definition sonic_config : StateComponent :=
  {| name := "sonic_config"; path := "/etc/sonic/config_db.json";
     component_type := "file"; required := true;
     preserve_permissions := true; special_handler := None |}.

Definition user_data : StateComponent :=
  {| name := "user_data"; path := "/home";
     component_type := "directory"; required := true;
     preserve_permissions := true;
     special_handler := Some "home_directories" |}.

Definition ssh_infrastructure : StateComponent :=
  {| name := "ssh_infrastructure"; path := "/etc/ssh";
     component_type := "directory"; required := true;
     preserve_permissions := true; special_handler := Some "ssh_config" |}.

Definition system_mounts : StateComponent :=
  {| name := "system_mounts"; path := "/etc/fstab";
     component_type := "file"; required := true;
     preserve_permissions := true; special_handler := None |}.

Definition fan_control : StateComponent :=
  {| name := "fan_control"; path := "/etc/sonic/custom-fan/fancontrol";
     component_type := "file"; required := false;
     preserve_permissions := true; special_handler := None |}.

Definition admin_auth : StateComponent :=
  {| name := "admin_auth"; path := "/etc/shadow";
     component_type := "file"; required := true;
     preserve_permissions := true; special_handler := Some "admin_shadow" |}.

Definition SONIC_STATE_COMPONENTS : list (string * StateComponent) :=
  [ ("sonic_config", sonic_config);
    ("user_data", user_data);
    ("ssh_infrastructure", ssh_infrastructure);
    ("system_mounts", system_mounts);
    ("fan_control", fan_control);
    ("admin_auth", admin_auth) ].

(** [SONIC_STATE_COMPONENTS.values()], in insertion order. *)
Definition values : list StateComponent := SONIC_STATE_COMPONENTS.*2.

(** ** State adapters *)

Class StateAdapter (A : Type) := {
  read_file : A → string → option bytes;
  write_file : string → bytes → option Z → M A unit;
  read_directory : A → string → option bytes;
  write_directory : string → bytes → M A unit;
  exists_ : A → string → bool
}.

Module FilesystemAdapter.

(** [root] is the tree found at [root_path]. *)
Record t := { root : fs; dry_run : bool }.

(** [FilesystemAdapter(root_path, dry_run)], [root] being what is at
    [root_path]. *)
Definition __init__ (root : fs) (dry_run : bool) : t :=
  {| root := root; dry_run := dry_run |}.

Definition on_root {A} (m : M fs A) : M t A :=
  λ self, let '(r, tree) := m (root self) in
          (r, {| root := tree; dry_run := dry_run self |}).

(** The components of [root_path / path.lstrip('/')] below [root_path]. *)
Definition _full_path (path : string) : list string :=
  path_parts (lstrip_slash path).

Definition exists_ (self : t) (path : string) : bool :=
  bool_decide (is_Some (lookup_path (_full_path path) (root self))).

(** Reading a directory raises inside [read_bytes], which is caught. *)
Definition read_file (self : t) (path : string) : option bytes :=
  match lookup_path (_full_path path) (root self) with
  | Some (File data _) => Some data
  | _ => None
  end.

(** [full_path.parent.mkdir(parents=True, exist_ok=True)]; the parent of
    the root itself lies outside the tree and is taken to exist. *)
Definition mkdir_parent (full_path : list string) : M fs unit :=
  match full_path with
  | [] => ret tt
  | _ :: _ => mkdir_p (removelast full_path)
  end.

Definition write_file `{Platform} (path : string) (data : bytes)
    (mode : option Z) : M t unit :=
  λ self,
  let full_path := _full_path path in
  if dry_run self then (Ok tt, self)
  else on_root
         (mkdir_parent full_path ;;;
          write_bytes new_file_mode full_path data ;;;
          match mode with
          | Some m => chmod full_path m
          | None => ret tt
          end) self.

Definition read_directory `{Platform} (self : t) (path : string)
  : option bytes :=
  match lookup_path (_full_path path) (root self) with
  | Some n => Some (tar_add n)
  | None => None
  end.

Definition write_directory `{Platform} (path : string) (data : bytes)
  : M t unit :=
  λ self,
  let full_path := _full_path path in
  if dry_run self then (Ok tt, self)
  else on_root
         (mkdir_p full_path ;;;
          match tar_open data with
          | None => raise ReadError
          | Some n => at_path false full_path (extract n)
          end) self.

End FilesystemAdapter.

#[export] Instance FilesystemAdapter_adapter `{Platform}
  : StateAdapter FilesystemAdapter.t := {
  read_file := FilesystemAdapter.read_file;
  write_file := FilesystemAdapter.write_file;
  read_directory := FilesystemAdapter.read_directory;
  write_directory := FilesystemAdapter.write_directory;
  exists_ := FilesystemAdapter.exists_
}.

(** A member of a tar.gz file. *)
Record TarInfo := { ti_name : string; ti_isfile : bool; ti_data : bytes }.

(** What is stored at [backup_path]: a file tarfile cannot open, or the
    members of a gzip-compressed tar stream, in order. *)
Inductive backup_file :=
| Unreadable
| TarGz (members : list TarInfo).

(** [s.startswith(prefix)] and [s[n:]] on [str] paths. *)
Fixpoint str_startswith (prefix s : string) : bool :=
  match prefix, s with
  | EmptyString, _ => true
  | String p prefix', String c s' => Ascii.eqb p c && str_startswith prefix' s'
  | String _ _, EmptyString => false
  end.

Fixpoint str_drop (n : nat) (s : string) : string :=
  match n, s with
  | S n', String _ s' => str_drop n' s'
  | _, _ => s
  end.

(** [tempfile.BytesIO(data)].  The module [tempfile] has no attribute
    [BytesIO] (it imports [io] under a private name), so evaluating the
    expression raises [AttributeError]. *)
Definition tempfile_BytesIO {St} (data : bytes) : M St bytes :=
  raise AttributeError.

Module BackupAdapter.

Record t := {
  backup_path : string;
  mode : string;
  dry_run : bool;
  _data : gmap string bytes;
  _metadata : json
}.

Definition set_data (d : gmap string bytes) (self : t) : t :=
  {| backup_path := backup_path self; mode := mode self;
     dry_run := dry_run self; _data := d; _metadata := _metadata self |}.

Definition set_metadata (j : json) (self : t) : t :=
  {| backup_path := backup_path self; mode := mode self;
     dry_run := dry_run self; _data := _data self; _metadata := j |}.

(** [tar.extractfile('manifest.json').read()] then [json.loads]: the last
    member of that name is taken; one that is not a regular file has no
    file object, and reading it raises. *)
Definition load_manifest `{Platform} (members : list TarInfo)
  : outcome json :=
  match last (filter (λ m, ti_name m = "manifest.json") members) with
  | Some m =>
    if ti_isfile m then
      match utf8_decode (ti_data m) with
      | Some txt =>
        match json_loads txt with
        | Some j => Ok j
        | None => Raise JSONDecodeError
        end
      | None => Raise UnicodeDecodeError
      end
    else Raise AttributeError
  | None => Raise AttributeError
  end.

(** Any exception while loading is logged and swallowed: what had been
    assigned before it stays. An archive without members does not open
    ([ReadError]). *)
Definition _load_backup `{Platform} (file : backup_file) (self : t) : t :=
  match file with
  | Unreadable => self
  | TarGz [] => self
  | TarGz members =>
    let loaded :=
      if bool_decide ("manifest.json" ∈ ti_name <$> members)
      then load_manifest members
      else Ok (_metadata self) in
    match loaded with
    | Raise _ => self
    | Ok j =>
      set_data
        (foldl (λ d member,
                  if str_startswith "data/" (ti_name member)
                     && ti_isfile member
                  then <[str_drop 5 (ti_name member) := ti_data member]> d
                  else d)
               (_data self) members)
        (set_metadata j self)
    end
  end.

(** [BackupAdapter(backup_path, mode, dry_run)]; [file] is what exists at
    [backup_path]. *)
Definition __init__ `{Platform} (file : option backup_file)
    (backup_path : string) (mode : string) (dry_run : bool) : t :=
  let self := {| backup_path := backup_path; mode := mode;
                 dry_run := dry_run; _data := ∅; _metadata := JObj [] |} in
  match file with
  | Some f => if bool_decide (mode = "r") then _load_backup f self else self
  | None => self
  end.

(** [tar.addfile(info, fileobj)] on the stream being written. *)
Definition addfile (member_name : string) (fileobj : bytes)
  : M (option backup_file) unit :=
  λ file,
  (Ok tt,
   match file with
   | Some (TarGz members) =>
     Some (TarGz (members ++ [{| ti_name := member_name; ti_isfile := true;
                                 ti_data := fileobj |}]))
   | _ => file
   end).

(** The store is the file at [backup_path].  [tarfile.open(_, 'w:gz')]
    creates it empty; leaving the [with] block, normally or by an
    exception, closes the gzip stream with the members added so far. *)
Definition save_backup `{Platform} (self : t) : M (option backup_file) unit :=
  if dry_run self then ret tt
  else
    (λ _, (Ok tt, Some (TarGz []))) ;;;
    let manifest :=
      JObj [("created_at", JStr date_Is); ("host", JStr hostname);
            ("script_version", JStr "2025.08.20-5");
            ("components", JList (JStr <$> (map_to_list (_data self)).*1))] in
    let manifest_json := json_dumps manifest in
    fileobj <~ tempfile_BytesIO manifest_json ;;
    addfile "manifest.json" fileobj ;;;
    for_each
      (λ '(path, data),
         fileobj <~ tempfile_BytesIO data ;;
         addfile ("data/" +:+ path) fileobj)
      (map_to_list (_data self)).

Definition exists_ (self : t) (path : string) : bool :=
  bool_decide (is_Some (_data self !! path)).

Definition read_file (self : t) (path : string) : option bytes :=
  _data self !! path.

Definition write_file (path : string) (data : bytes) (mode : option Z)
  : M t unit :=
  λ self, (Ok tt, set_data (<[path := data]> (_data self)) self).

Definition read_directory (self : t) (path : string) : option bytes :=
  _data self !! path.

Definition write_directory (path : string) (data : bytes) : M t unit :=
  λ self, (Ok tt, set_data (<[path := data]> (_data self)) self).

End BackupAdapter.

#[export] Instance BackupAdapter_adapter : StateAdapter BackupAdapter.t := {
  read_file := BackupAdapter.read_file;
  write_file := BackupAdapter.write_file;
  read_directory := BackupAdapter.read_directory;
  write_directory := BackupAdapter.write_directory;
  exists_ := BackupAdapter.exists_
}.

(** ** The state manager *)

(** The octal literals [0o600] (owner read-write) and [0o644] (owner
    read-write, group and others read). *)
Definition mode_0o600 : Z := 6 * 64 + 0 * 8 + 0.
Definition mode_0o644 : Z := 6 * 64 + 4 * 8 + 4.

(** What [validate_environment] looks at. *)
Record environment := { geteuid : Z; which : string → bool }.

Module StateManager.

Record t := { dry_run : bool }.

Definition validate_environment (env : environment) (self : t)
  : outcome unit :=
  if negb (dry_run self) && negb (geteuid env =? 0)%Z
  then Raise PermissionError
  else if forallb (which env) ["tar"; "date"; "hostname"]
  then Ok tt
  else Raise RuntimeError.

Definition __init__ (env : environment) (dry_run : bool) : outcome t :=
  let self := {| dry_run := dry_run |} in
  match validate_environment env self with
  | Ok _ => Ok self
  | Raise e => Raise e
  end.

Section handlers.
Context {S D : Type} `{!StateAdapter S, !StateAdapter D}.

Definition handle_admin_shadow (component : StateComponent) (source : S)
  : M D bool :=
  let shadow_data := read_file source (path component) in
  if py_bool shadow_data then
    decoded <~ decode (the shadow_data) ;;
    let lines := splitlines decoded in
    let admin_lines :=
      filter (λ line, startswith (lit "admin:") line = true) lines in
    match admin_lines with
    | line :: _ =>
      encoded <~ encode line ;;
      write_file "meta/shadow.admin" encoded None ;;;
      ret true
    | [] => ret false
    end
  else ret false.

Definition handle_ssh_config (component : StateComponent) (source : S)
  : M D bool :=
  let base_path := path component in
  let config_data := read_file source (base_path +:+ "/sshd_config") in
  (if py_bool config_data
   then write_file (base_path +:+ "/sshd_config") (the config_data) None
   else ret tt) ;;;
  let config_d_data :=
    read_directory source (base_path +:+ "/sshd_config.d") in
  (if py_bool config_d_data
   then write_directory (base_path +:+ "/sshd_config.d")
          (the config_d_data)
   else ret tt) ;;;
  for_each
    (λ key_type,
       for_each
         (λ suffix,
            let key_path :=
              base_path +:+ "/ssh_host_" +:+ key_type +:+ "_key"
              +:+ suffix in
            let key_data := read_file source key_path in
            if py_bool key_data
            then write_file key_path (the key_data)
                   (Some (if bool_decide (suffix = "")
                          then mode_0o600 else mode_0o644))
            else ret tt)
         [""; ".pub"])
    ["rsa"; "ecdsa"; "ed25519"] ;;;
  ret true.

Definition handle_home_directories (component : StateComponent)
    (source : S) : M D bool :=
  let home_data := read_directory source (path component) in
  if py_bool home_data then
    write_directory (path component) (the home_data) ;;;
    ret true
  else ret false.

Definition _handle_special_component (component : StateComponent)
    (source : S) : M D bool :=
  if bool_decide (special_handler component = Some "admin_shadow")
  then handle_admin_shadow component source
  else if bool_decide (special_handler component = Some "ssh_config")
  then handle_ssh_config component source
  else if bool_decide (special_handler component = Some "home_directories")
  then handle_home_directories component source
  else ret false.

(** The standard handling of one component ([backup_state], [restore_state]
    and [migrate_state] spell it out identically): the file branch, the
    directory branch and their dispatch; each returns the new value of
    [success]. *)
Definition copy_file (source : S) (p : string) (is_required : bool)
    (success : bool) : M D bool :=
  let data := read_file source p in
  if py_bool data then write_file p (the data) None ;;; ret success
  else if is_required then ret false
  else ret success.

Definition copy_directory (source : S) (p : string) (is_required : bool)
    (success : bool) : M D bool :=
  let data := read_directory source p in
  if py_bool data then write_directory p (the data) ;;; ret success
  else if is_required then ret false
  else ret success.

Definition standard_copy (component : StateComponent) (source : S)
    (success : bool) : M D bool :=
  if bool_decide (component_type component = "file") then
    copy_file source (path component) (required component) success
  else if bool_decide (component_type component = "directory") then
    copy_directory source (path component) (required component) success
  else ret success.

(** One iteration of the loop of [backup_state] and [migrate_state]. *)
Definition copy_component (source : S) (success : bool)
    (component : StateComponent) : M D bool :=
  handled <~ (if py_str_bool (special_handler component)
              then _handle_special_component component source
              else ret false) ;;
  if handled then ret success
  else standard_copy component source success.

(** One iteration of the loop of [restore_state]. *)
Definition restore_component (backup : S) (success : bool)
    (component : StateComponent) : M D bool :=
  if bool_decide (special_handler component = Some "admin_shadow") then
    (* only logs: nothing is written and [success] is not touched *)
    ret success
  else standard_copy component backup success.

(** [success = True; for component in SONIC_STATE_COMPONENTS.values(): ...]
    of [backup_state] and [migrate_state], and of [restore_state]. *)
Definition copy_components (source : S) : M D bool :=
  for_fold (copy_component source) true values.

Definition restore_components (backup : S) : M D bool :=
  for_fold (restore_component backup) true values.

End handlers.

Section operations.
Context `{Platform}.

(** [source_root] is the tree at that root and [file] what exists at
    [backup_path]; returns the outcome and what is at [backup_path]
    afterwards. *)
Definition backup_state (self : t) (source_root : fs)
    (backup_path : string) (file : option backup_file)
  : outcome bool * option backup_file :=
  let source := FilesystemAdapter.__init__ source_root (dry_run self) in
  let backup := BackupAdapter.__init__ file backup_path "w" (dry_run self) in
  match copy_components source backup with
  | (Raise e, _) => (Raise e, file)
  | (Ok success, backup) =>
    match BackupAdapter.save_backup backup file with
    | (Raise e, file') => (Raise e, file')
    | (Ok _, file') => (Ok success, file')
    end
  end.

(** Returns the outcome and the tree at [target_root] afterwards. *)
Definition restore_state (self : t) (backup_path : string)
    (file : option backup_file) (target_root : fs) : outcome bool * fs :=
  let backup := BackupAdapter.__init__ file backup_path "r" (dry_run self) in
  let target := FilesystemAdapter.__init__ target_root (dry_run self) in
  let '(r, target) := restore_components backup target in
  (r, FilesystemAdapter.root target).

Definition migrate_state (self : t) (source_root target_root : fs)
  : outcome bool * fs :=
  let source := FilesystemAdapter.__init__ source_root (dry_run self) in
  let target := FilesystemAdapter.__init__ target_root (dry_run self) in
  let '(r, target) := copy_components source target in
  (r, FilesystemAdapter.root target).

Definition validate_component (source : FilesystemAdapter.t)
    (success : bool) (component : StateComponent) : bool :=
  if bool_decide (component_type component = "file") then
    if exists_ source (path component) then success
    else if required component then false
    else success
  else if bool_decide (component_type component = "directory") then
    if exists_ source (path component) then success
    else if required component then false
    else success
  else success.

Definition validate_state (self : t) (source_root : fs) : bool :=
  let source := FilesystemAdapter.__init__ source_root (dry_run self) in
  foldl (validate_component source) true values.

End operations.

End StateManager.

(** * Vocabulary of the properties *)

(** ** Credential lines *)


(** A code point [str.encode()] accepts. *)
Definition encodable (c : N) : Prop := is_Some (utf8_encode_cp c).

(** ** Paths in a tree *)

(** [p] and [q] part ways at some component. *)
Fixpoint diverge (p q : list string) : bool :=
  match p, q with
  | a :: p', c :: q' => if String.eqb a c then diverge p' q' else true
  | _, _ => false
  end.

(** [p] names [q] or one of its ancestors. *)
Fixpoint is_prefix (p q : list string) : bool :=
  match p, q with
  | [], _ => true
  | a :: p', c :: q' => String.eqb a c && is_prefix p' q'
  | _ :: _, [] => false
  end.

(** A leaf action that changes nothing below the node it is run on. *)
Definition shallow (leaf : M fs unit) : Prop :=
  ∀ x r, r ≠ [] → lookup_path r (leaf x).2 = lookup_path r x.

Fixpoint alist_delete {A} (k : string) (l : list (string * A))
  : list (string * A) :=
  match l with
  | [] => []
  | (k', v) :: l' =>
    if String.eqb k k' then alist_delete k l' else (k', v) :: alist_delete k l'
  end.

(** The tree without the node at [p]: the same root with that file
    missing. *)
Fixpoint unlink (p : list string) (t : fs) : fs :=
  match p with
  | [] => None
  | c :: p' =>
    match t with
    | Some (Dir es) =>
      match p' with
      | [] => Some (Dir (alist_delete c es))
      | _ :: _ => Some (Dir (alist_set c (unlink p' (alist_lookup c es)) es))
      end
    | _ => t
    end
  end.

(** ** Behaviour of a computation *)

(** [m] keeps the property [P] of the store, whether it returns or raises. *)
Definition keeps {St A} (P : St → Prop) (m : M St A) : Prop :=
  ∀ s, P s → P (m s).2.

(** On a store satisfying [P], [m] returns [v] and keeps [P]; it may raise
    instead only if [may_raise]. *)
Definition behaves {St A} (P : St → Prop) (may_raise : Prop) (v : A)
    (m : M St A) : Prop :=
  ∀ s, P s →
    ((m s).1 = Ok v ∧ P (m s).2) ∨ (may_raise ∧ ∃ e, (m s).1 = Raise e).

(** ** What decides the result of an operation *)

(** The existence test of [validate_state], with the required flag. *)
Definition present `{Platform} (source : FilesystemAdapter.t)
    (c : StateComponent) : bool :=
  exists_ source (path c) || negb (required c).

(** What the standard path of [backup_state] and [migrate_state] needs from
    a source: truthy data for the configuration, the home tree, the mount
    table and the credential file. *)
Definition copy_ok {S} `{!StateAdapter S} (source : S) : bool :=
  py_bool (read_file source "/etc/sonic/config_db.json")
  && py_bool (read_directory source "/home")
  && py_bool (read_file source "/etc/fstab")
  && py_bool (read_file source "/etc/shadow").

(** What [restore_state] needs from a backup: truthy entries for the
    configuration, the home tree, the SSH directory and the mount table. *)
Definition restore_ok {S} `{!StateAdapter S} (backup : S) : bool :=
  py_bool (read_file backup "/etc/sonic/config_db.json")
  && py_bool (read_directory backup "/home")
  && py_bool (read_directory backup "/etc/ssh")
  && py_bool (read_file backup "/etc/fstab").

(** One host key of the SSH bundle: the body of the inner loop of the
    handler for a given path and mode. *)
Definition key_step `{Platform} {S} `{!StateAdapter S} (source : S)
    (key_path : string) (mode : Z) : M FilesystemAdapter.t unit :=
  let key_data := read_file source key_path in
  if py_bool key_data then write_file key_path (the key_data) (Some mode)
  else ret tt.

(** An outcome that is not success: the operation returns false or raises. *)
Definition fails (r : outcome bool) : Prop := r = Ok false ∨ ∃ e, r = Raise e.

(** The host key paths the SSH handler visits, in order, with the mode it
    passes for each. *)
Definition host_keys : list (string * Z) :=
  [("/etc/ssh/ssh_host_rsa_key", mode_0o600);
   ("/etc/ssh/ssh_host_rsa_key.pub", mode_0o644);
   ("/etc/ssh/ssh_host_ecdsa_key", mode_0o600);
   ("/etc/ssh/ssh_host_ecdsa_key.pub", mode_0o644);
   ("/etc/ssh/ssh_host_ed25519_key", mode_0o600);
   ("/etc/ssh/ssh_host_ed25519_key.pub", mode_0o644)].

(** ** Backup files *)




(** ** Writing into a tree *)

Definition is_dir (t : fs) : bool :=
  match t with Some (Dir _) => true | _ => false end.

(** Walking down [q] from [t] as far as the tree goes meets a regular file
    ([t] itself counts). *)
Fixpoint file_on_path (q : list string) (t : fs) : bool :=
  match t with
  | Some (File _ _) => true
  | Some (Dir es) =>
    match q with
    | [] => false
    | c :: q' => file_on_path q' (alist_lookup c es)
    end
  | None => false
  end.

(** What makes [write_file] at the components [q] fail: a regular file at
    the parent of [q] or above it, or a directory at [q] itself. *)
Definition refuses_write (q : list string) (t : fs) : bool :=
  match q with
  | [] => false
  | _ :: _ => file_on_path (removelast q) t
  end || is_dir (lookup_path q t).

(** What a place holds after [write_file] with no mode has written [data]
    there: the permission bits are those of the file it replaced, or the
    default for a new file. *)
Definition written `{Platform} (data : bytes) (before : fs) : fs :=
  Some (File data match before with
                  | Some (File _ m0) => m0
                  | _ => new_file_mode
                  end).

(** ** Where the operations write *)


(** The paths under which [backup_state] and [migrate_state] write: the
    paths of the components (the SSH handler writes below its own) and the
    entry of the credential handler. *)
Definition copy_destinations : list string :=
  "meta/shadow.admin" :: (path <$> values).

(** The paths one iteration of the loop of [backup_state] and
    [migrate_state] may pass to the destination for the component [c]:
    those of its special handler, then its own for the standard branch. *)
Definition copy_writes (c : StateComponent) : list string :=
  (if bool_decide (special_handler c = Some "admin_shadow")
   then ["meta/shadow.admin"]
   else if bool_decide (special_handler c = Some "ssh_config")
   then [path c +:+ "/sshd_config"; path c +:+ "/sshd_config.d";
         path c +:+ "/ssh_host_" +:+ "rsa" +:+ "_key" +:+ "";
         path c +:+ "/ssh_host_" +:+ "rsa" +:+ "_key" +:+ ".pub";
         path c +:+ "/ssh_host_" +:+ "ecdsa" +:+ "_key" +:+ "";
         path c +:+ "/ssh_host_" +:+ "ecdsa" +:+ "_key" +:+ ".pub";
         path c +:+ "/ssh_host_" +:+ "ed25519" +:+ "_key" +:+ "";
         path c +:+ "/ssh_host_" +:+ "ed25519" +:+ "_key" +:+ ".pub"]
   else if bool_decide (special_handler c = Some "home_directories")
   then [path c]
   else [])
  ++ [path c].


(** The place [q] of a root parts ways with every path the components [xs]
    may write. *)
Definition clear_of (writes : StateComponent → list string)
    (q : list string) (xs : list StateComponent) : bool :=
  forallb
    (λ c, forallb (λ p, diverge q (FilesystemAdapter._full_path p)) (writes c))
    xs.

(** ** Directory trees *)




(** ** The command line *)

(** The subcommand chosen on the command line with its arguments, each
    root and backup path given together with what it names; source and
    target are distinct trees. *)
Inductive command :=
| Backup (source : fs) (output : string) (file : option backup_file)
| Restore (input : string) (file : option backup_file) (target : fs)
| Migrate (source target : fs)
| Validate (source : fs).

(** What [parser.parse_args()] returns; [args_command] is [None] when no
    subcommand was given. *)
Record args := { args_dry_run : bool; args_command : option command }.

(** The [if]/[elif] chain inside the [try] of [main]: the operation's
    outcome, and the command with the stores as the operation leaves
    them. *)
Definition dispatch `{Platform} (manager : StateManager.t) (c : command)
  : outcome bool * command :=
  match c with
  | Backup source output file =>
    let '(r, file') := StateManager.backup_state manager source output file in
    (r, Backup source output file')
  | Restore input file target =>
    let '(r, target') := StateManager.restore_state manager input file target in
    (r, Restore input file target')
  | Migrate source target =>
    let '(r, target') := StateManager.migrate_state manager source target in
    (r, Migrate source target')
  | Validate source => (Ok (StateManager.validate_state manager source), c)
  end.

(** [main()]: the value it returns, or the exception that leaves it.  The
    manager is constructed before the [try], so an exception of
    [validate_environment] is not caught; every exception of the operation
    is, and turned into 1. *)
Definition main `{Platform} (env : environment) (a : args)
  : outcome Z * option command :=
  match args_command a with
  | None => (Ok 1%Z, None)
  | Some c =>
    match StateManager.__init__ env (args_dry_run a) with
    | Raise e => (Raise e, Some c)
    | Ok manager =>
      match dispatch manager c with
      | (Ok success, c') => (Ok (if success then 0 else 1)%Z, Some c')
      | (Raise _, c') => (Ok 1%Z, Some c')
      end
    end
  end.

(** The exit status of the script, [exit(main())]: an exception that
    leaves [main] ends the interpreter with status 1. *)
Definition exit_status (r : outcome Z) : Z :=
  match r with
  | Ok n => n
  | Raise _ => 1
  end.

(** What [validate_environment] asks of the environment. *)
Definition usable (env : environment) (dry_run : bool) : bool :=
  (dry_run || (geteuid env =? 0)%Z)
  && which env "tar" && which env "date" && which env "hostname".

(** ** A platform and stores for the examples *)

(** A stand-in for tar packing: a tag, then unary-coded sizes, names and
    contents, children in listing order.  [tar_parse] reads it back. *)
Fixpoint enc_nat (n : nat) : bytes :=
  match n with
  | O => ["000"%byte]
  | S n' => "001"%byte :: enc_nat n'
  end.

Fixpoint dec_nat (bs : bytes) : option (nat * bytes) :=
  match bs with
  | "000"%byte :: r => Some (O, r)
  | "001"%byte :: r => (λ '(n, r'), (S n, r')) <$> dec_nat r
  | _ => None
  end.

Fixpoint tar_pack (n : node) : bytes :=
  match n with
  | File d m => "F"%byte :: enc_nat (Z.to_nat m) ++ enc_nat (length d) ++ d
  | Dir es =>
    "D"%byte :: enc_nat (length es) ++
    (fix go (es : list (string * node)) : bytes :=
       match es with
       | [] => []
       | (k, c) :: r =>
         enc_nat (length (b k)) ++ b k ++ tar_pack c ++ go r
       end) es
  end.

Fixpoint tar_parse (fuel : nat) (bs : bytes) : option (node * bytes) :=
  match fuel with
  | O => None
  | S fuel' =>
    match bs with
    | "F"%byte :: r =>
      '(m, r) ← dec_nat r;
      '(len, r) ← dec_nat r;
      if decide (len ≤ length r)
      then Some (File (take len r) (Z.of_nat m), drop len r)
      else None
    | "D"%byte :: r =>
      '(k, r) ← dec_nat r;
      '(es, r) ←
        (fix entries (k : nat) (r : bytes)
           : option (list (string * node) * bytes) :=
           match k with
           | O => Some ([], r)
           | S k' =>
             '(len, r) ← dec_nat r;
             if decide (len ≤ length r) then
               '(c, r') ← tar_parse fuel' (drop len r);
               '(es, r'') ← entries k' r';
               Some ((String.string_of_list_byte (take len r), c) :: es, r'')
             else None
           end) k r;
      Some (Dir es, r)
    | _ => None
    end
  end.

#[export] Instance example_platform : Platform := {|
  tar_add := tar_pack;
  tar_open := λ bs, match tar_parse (length bs) bs with
                    | Some (n, []) => Some n
                    | _ => None
                    end;
  json_loads := λ _, Some (JObj []);
  json_dumps := λ _, b "{}";
  date_Is := "2025-08-20T00:00:00+00:00";
  hostname := "sonic";
  new_file_mode := mode_0o644
|}.

(** The three lines of the example credential file. *)
Definition example_shadow : bytes :=
  b "root:*:19000:0:99999:7:::" ++ ["010"%byte]
  ++ b "admin:$6$salt$hash:19000:0:99999:7:::" ++ ["010"%byte]
  ++ b "sshd:!:19000::::::" ++ ["010"%byte].

(** A root populated with every component of the registry. *)
Definition populated_root : fs :=
  Some (Dir
    [("etc", Dir
       [("sonic", Dir
          [("config_db.json", File (b "{}") mode_0o644);
           ("custom-fan", Dir [("fancontrol", File (b "INTERVAL=10") mode_0o644)])]);
        ("ssh", Dir
          [("sshd_config", File (b "Port 22") mode_0o644);
           ("sshd_config.d", Dir [("10-local.conf", File (b "X11Forwarding no") mode_0o644)]);
           ("ssh_host_rsa_key", File (b "PRIVATE") 511);
           ("ssh_host_rsa_key.pub", File (b "ssh-rsa AAAA") 511)]);
        ("fstab", File (b "/dev/sda1 / ext4 defaults 0 1") mode_0o644);
        ("shadow", File example_shadow 416)]);
     ("home", Dir
       [("admin", Dir [(".bashrc", File (b "alias ll=ls") mode_0o644)])])]).

Definition empty_root : fs := Some (Dir []).

(** The same root with the file at [p] emptied. *)
Definition truncated (p : list string) (t : fs) : fs :=
  (write_bytes mode_0o644 p [] t).2.

(** A manager that writes, and one constructed with [dry_run=True]. *)
Definition live : StateManager.t := {| StateManager.dry_run := false |}.
Definition rehearsal : StateManager.t := {| StateManager.dry_run := true |}.

Definition member (n : string) (data : bytes) : TarInfo :=
  {| ti_name := n; ti_isfile := true; ti_data := data |}.

(** A backup file holding every entry [restore_state] reads, and an empty
    entry for the credential file. *)
Definition example_backup : backup_file :=
  TarGz
    [member "manifest.json" (b "{}");
     member "data//etc/sonic/config_db.json" (b "{}");
     member "data//home" (tar_pack (Dir [("admin", Dir [])]));
     member "data//etc/ssh"
       (tar_pack (Dir [("sshd_config", File (b "Port 22") mode_0o644)]));
     member "data//etc/fstab" (b "/dev/sda1 / ext4 defaults 0 1");
     member "data//etc/shadow" []].

(** * Properties *)

(** ** The monad *)

Lemma bind_ok {St A B} (m : M St A) (k : A → M St B) s v s'' :
  bind m k s = (Ok v, s'') → ∃ a s', m s = (Ok a, s') ∧ k a s' = (Ok v, s'').
Proof. unfold bind. destruct (m s) as [[a|e] s']; [eauto | done]. Qed.

Lemma bind_snd_frame {St A B X} (f : St → X) (m : M St A) (k : A → M St B) s :
  f (m s).2 = f s → (∀ a s', f (k a s').2 = f s') → f (bind m k s).2 = f s.
Proof.
  intros Hm Hk. unfold bind. destruct (m s) as [[a|e] s'] eqn:E; cbn in *.
  - by rewrite Hk.
  - done.
Qed.

Section keeps.
Context {St : Type} (P : St → Prop).

Lemma keeps_ret {A} (a : A) : keeps P (ret a).
Proof. by intros s. Qed.

Lemma keeps_raise {A} e : keeps P (raise (A:=A) e).
Proof. by intros s. Qed.

Lemma keeps_bind {A B} (m : M St A) (k : A → M St B) :
  keeps P m → (∀ a, keeps P (k a)) → keeps P (bind m k).
Proof.
  intros Hm Hk s Hs. unfold bind. specialize (Hm s Hs).
  destruct (m s) as [[a|e] s']; cbn in *; [by apply Hk | done].
Qed.

Lemma keeps_decode data : keeps P (decode data).
Proof.
  unfold decode. destruct (utf8_decode data); [apply keeps_ret | apply keeps_raise].
Qed.

Lemma keeps_encode t : keeps P (encode t).
Proof.
  unfold encode. destruct (utf8_encode t); [apply keeps_ret | apply keeps_raise].
Qed.

Lemma keeps_if {A} (c : bool) (m1 m2 : M St A) :
  keeps P m1 → keeps P m2 → keeps P (if c then m1 else m2).
Proof. by destruct c. Qed.

Lemma keeps_for_each {X} (body : X → M St unit) xs :
  (∀ x, keeps P (body x)) → keeps P (for_each body xs).
Proof.
  intros Hb. induction xs as [|x xs IH]; cbn [for_each];
    [apply keeps_ret | apply keeps_bind; auto].
Qed.

Lemma keeps_for_fold {A X} (body : A → X → M St A) acc xs :
  (∀ a x, keeps P (body a x)) → keeps P (for_fold body acc xs).
Proof.
  intros Hb. revert acc. induction xs as [|x xs IH]; intros acc; cbn [for_fold];
    [apply keeps_ret | apply keeps_bind; auto].
Qed.

End keeps.

Section behaves.
Context {St : Type} (P : St → Prop) (may_raise : Prop).

Lemma behaves_ret {A} (v : A) : behaves P may_raise v (ret v).
Proof. intros s Hs. by left. Qed.

Lemma behaves_raise {A} (v : A) e : may_raise → behaves P may_raise v (raise e).
Proof. intros Hr s Hs. right. split; [done | by exists e]. Qed.

Lemma behaves_bind {A B} (m : M St A) (k : A → M St B) a v :
  behaves P may_raise a m → behaves P may_raise v (k a) →
  behaves P may_raise v (bind m k).
Proof.
  intros Hm Hk s Hs. unfold bind. specialize (Hm s Hs).
  destruct (m s) as [[a'|e] s']; cbn in *.
  - destruct Hm as [[[= ->] Hs']|[_ [e He]]]; [by apply Hk | done].
  - destruct Hm as [[? _]|[Hr _]]; [done|]. right. eauto.
Qed.

Lemma behaves_if {A} (c : bool) (m1 m2 : M St A) v :
  behaves P may_raise v m1 → behaves P may_raise v m2 →
  behaves P may_raise v (if c then m1 else m2).
Proof. by destruct c. Qed.

Lemma behaves_for_each {X} (body : X → M St unit) xs :
  (∀ x, behaves P may_raise tt (body x)) →
  behaves P may_raise tt (for_each body xs).
Proof.
  intros Hb. induction xs as [|x xs IH]; cbn [for_each];
    [apply behaves_ret | by apply (behaves_bind _ _ tt)].
Qed.

End behaves.

(** Without a condition on the store, a computation that may raise behaves
    like any value of [unit]. *)
Lemma behaves_unit {St} (m : M St unit) : behaves (λ _, True) True tt m.
Proof. intros s _. destruct (m s) as [[[]|e] s']; cbn; eauto. Qed.

Lemma behaves_returns {St A} (P : St → Prop) (v : A) (m : M St A) s :
  behaves P False v m → P s → (m s).1 = Ok v.
Proof. intros Hm Hs. by destruct (Hm s Hs) as [[? _]|[[] _]]. Qed.

Lemma behaves_yields {St A} (Q : Prop) (v : A) (m : M St A) s :
  behaves (λ _, True) Q v m → (m s).1 = Ok v ∨ ∃ e, (m s).1 = Raise e.
Proof. intros Hm. destruct (Hm s I) as [[? _]|[_ ?]]; eauto. Qed.

(** ** Text *)



Lemma between_spec lo hi x : between lo hi x = true ↔ (lo ≤ x ≤ hi)%N.
Proof. unfold between. rewrite andb_true_iff, !N.leb_le. done. Qed.

Lemma encodable_1 x : (x < 0x80)%N → encodable x.
Proof.
  intros Hx. unfold encodable, utf8_encode_cp.
  destruct (N.ltb_spec x 0x80); [eauto | lia].
Qed.

Lemma encodable_2 x0 x1 :
  between 0xC2 0xDF x0 = true → cont x1 = true →
  encodable ((x0 - 0xC0) * 64 + (x1 - 0x80)).
Proof.
  unfold cont. rewrite !between_spec. intros H0 H1.
  unfold encodable, utf8_encode_cp.
  destruct (N.ltb_spec ((x0 - 0xC0) * 64 + (x1 - 0x80)) 0x80); [eauto|].
  destruct (N.ltb_spec ((x0 - 0xC0) * 64 + (x1 - 0x80)) 0x800); [eauto|lia].
Qed.

Lemma encodable_3 x0 x1 x2 :
  between 0xE0 0xEF x0 = true → second_of_3 x0 x1 = true → cont x2 = true →
  encodable (((x0 - 0xE0) * 64 + (x1 - 0x80)) * 64 + (x2 - 0x80)).
Proof.
  unfold cont, second_of_3. rewrite between_spec. intros H0 H1 H2.
  apply between_spec in H2.
  set (c := (((x0 - 0xE0) * 64 + (x1 - 0x80)) * 64 + (x2 - 0x80))%N).
  assert (Hc : (0x800 ≤ c < 0xD800 ∨ 0xE000 ≤ c < 0x10000)%N).
  { subst c. destruct (N.eqb_spec x0 0xE0).
    { apply between_spec in H1. lia. }
    destruct (N.eqb_spec x0 0xED).
    { apply between_spec in H1. lia. }
    apply between_spec in H1. lia. }
  unfold encodable, utf8_encode_cp.
  destruct (N.ltb_spec c 0x80); [lia|].
  destruct (N.ltb_spec c 0x800); [lia|].
  destruct (N.ltb_spec c 0x10000); [|lia].
  destruct (between 0xD800 0xDFFF c) eqn:Hs; [|eauto].
  apply between_spec in Hs. lia.
Qed.

Lemma encodable_4 x0 x1 x2 x3 :
  between 0xF0 0xF4 x0 = true → second_of_4 x0 x1 = true →
  cont x2 = true → cont x3 = true →
  encodable ((((x0 - 0xF0) * 64 + (x1 - 0x80)) * 64 + (x2 - 0x80)) * 64
             + (x3 - 0x80)).
Proof.
  unfold cont, second_of_4. rewrite between_spec. intros H0 H1 H2 H3.
  apply between_spec in H2. apply between_spec in H3.
  set (c := ((((x0 - 0xF0) * 64 + (x1 - 0x80)) * 64 + (x2 - 0x80)) * 64
             + (x3 - 0x80))%N).
  assert (Hc : (0x10000 ≤ c < 0x110000)%N).
  { subst c. destruct (N.eqb_spec x0 0xF0).
    { apply between_spec in H1. lia. }
    destruct (N.eqb_spec x0 0xF4).
    { apply between_spec in H1. lia. }
    apply between_spec in H1. lia. }
  unfold encodable, utf8_encode_cp.
  destruct (N.ltb_spec c 0x80); [lia|].
  destruct (N.ltb_spec c 0x800); [lia|].
  destruct (N.ltb_spec c 0x10000); [lia|].
  destruct (N.ltb_spec c 0x110000); [eauto|lia].
Qed.

Lemma utf8_decode_encodable_len n bs t :
  length bs ≤ n → utf8_decode bs = Some t → Forall encodable t.
Proof.
  revert bs t. induction n as [|n IH]; intros bs t Hlen.
  { destruct bs; [|cbn in Hlen; lia]. intros [= <-]. constructor. }
  destruct bs as [|b0 r0]; [intros [= <-]; constructor|].
  cbn [utf8_decode]. cbn in Hlen.
  destruct (N.ltb_spec (Byte.to_N b0) 0x80) as [H0|H0].
  { destruct (utf8_decode r0) as [t0|] eqn:E; [|done]. intros [= <-].
    constructor; [by apply encodable_1 | apply (IH r0); [lia|done]]. }
  destruct r0 as [|b1 r1]; [done|]. cbn in Hlen.
  destruct (between 0xC2 0xDF (Byte.to_N b0)) eqn:H2.
  { destruct (cont (Byte.to_N b1)) eqn:Hc1; [|done].
    destruct (utf8_decode r1) as [t0|] eqn:E; [|done]. intros [= <-].
    constructor; [by apply encodable_2 | apply (IH r1); [lia|done]]. }
  destruct r1 as [|b2 r2]; [done|]. cbn in Hlen.
  destruct (between 0xE0 0xEF (Byte.to_N b0)) eqn:H3.
  { destruct (second_of_3 _ _) eqn:Hs; [|done].
    destruct (cont (Byte.to_N b2)) eqn:Hc2; [|done]. cbn.
    destruct (utf8_decode r2) as [t0|] eqn:E; [|done]. intros [= <-].
    constructor; [by apply encodable_3 | apply (IH r2); [lia|done]]. }
  destruct r2 as [|b3 r3]; [done|]. cbn in Hlen.
  destruct (between 0xF0 0xF4 (Byte.to_N b0)) eqn:H4; [|done].
  destruct (second_of_4 _ _) eqn:Hs; [|done].
  destruct (cont (Byte.to_N b2)) eqn:Hc2; [|done].
  destruct (cont (Byte.to_N b3)) eqn:Hc3; [|done]. cbn.
  destruct (utf8_decode r3) as [t0|] eqn:E; [|done]. intros [= <-].
  constructor; [by apply encodable_4 | apply (IH r3); [lia|done]].
Qed.

Lemma utf8_decode_encodable bs t :
  utf8_decode bs = Some t → Forall encodable t.
Proof. by apply (utf8_decode_encodable_len (length bs)). Qed.

Lemma utf8_encode_is_Some t : Forall encodable t → is_Some (utf8_encode t).
Proof.
  induction 1 as [|c t [bs Hc] _ [bs' IH]]; cbn; [eauto|].
  rewrite Hc, IH. eauto.
Qed.

Lemma splitlines_from_Forall_len (P : N → Prop) n cur s :
  length s ≤ n →
  Forall P cur → Forall P s → Forall (Forall P) (splitlines_from cur s).
Proof.
  revert cur s. induction n as [|n IH]; intros cur s Hlen Hcur Hs.
  { destruct s; [|cbn in Hlen; lia]. cbn.
    destruct cur; [constructor|]. constructor; [|constructor].
    by apply Forall_rev. }
  destruct s as [|c s']; cbn [splitlines_from].
  { destruct cur; [constructor|]. constructor; [|constructor].
    by apply Forall_rev. }
  cbn in Hlen. apply Forall_cons in Hs as [Hc Hs'].
  destruct (is_linebreak c).
  - constructor; [by apply Forall_rev|].
    destruct s' as [|c' s'']; [apply IH; cbn; auto; lia|].
    apply Forall_cons in Hs' as [Hc' Hs'']. cbn in Hlen.
    destruct (_ && _); apply IH; cbn; auto; lia.
  - apply IH; cbn; auto; lia.
Qed.

Lemma splitlines_Forall (P : N → Prop) s :
  Forall P s → Forall (Forall P) (splitlines s).
Proof. intros. by apply (splitlines_from_Forall_len P (length s)). Qed.

(** ** Trees *)

Section tree.
Context {A : Type}.
Implicit Types l : list (string * A).

Lemma alist_lookup_insert_eq k (v : A) l :
  alist_lookup k (alist_insert k v l) = Some v.
Proof.
  induction l as [|[k' v'] l IH]; cbn.
  - by rewrite String.eqb_refl.
  - destruct (String.eqb_spec k k'); cbn.
    + by rewrite String.eqb_refl.
    + by destruct (String.eqb_spec k k').
Qed.

Lemma alist_lookup_insert_ne k k' (v : A) l :
  k ≠ k' → alist_lookup k' (alist_insert k v l) = alist_lookup k' l.
Proof.
  intros Hne. induction l as [|[k0 v0] l IH]; cbn.
  - by destruct (String.eqb_spec k' k); [subst|].
  - destruct (String.eqb_spec k k0) as [->|]; cbn.
    + by destruct (String.eqb_spec k' k0); [subst|].
    + by destruct (String.eqb_spec k' k0).
Qed.

Lemma alist_lookup_set_ne k k' (o : option A) l :
  k ≠ k' → alist_lookup k' (alist_set k o l) = alist_lookup k' l.
Proof. destruct o; cbn; [apply alist_lookup_insert_ne | done]. Qed.
End tree.

Lemma lookup_path_None p : lookup_path p None = None.
Proof. by destruct p. Qed.

Lemma lookup_path_File p d m : p ≠ [] → lookup_path p (Some (File d m)) = None.
Proof. by destruct p. Qed.

Lemma lookup_path_set c p child es :
  lookup_path p child = lookup_path p (alist_lookup c es) →
  lookup_path (c :: p) (Some (Dir (alist_set c child es)))
  = lookup_path (c :: p) (Some (Dir es)).
Proof.
  cbn. destruct child as [v|]; cbn; [|done].
  by rewrite alist_lookup_insert_eq.
Qed.

Lemma at_path_frame_diverge create q leaf t p :
  diverge p q = true →
  lookup_path p (at_path create q leaf t).2 = lookup_path p t.
Proof.
  revert t p. induction q as [|c q IH]; intros t [|a p]; cbn [diverge]; try done.
  intros Hd. cbn [at_path].
  destruct t as [[d m|es]|]; [done| |].
  - destruct (at_path create q leaf (alist_lookup c es)) as [r child] eqn:E.
    cbn [snd]. destruct (String.eqb_spec a c) as [->|Hne].
    + apply lookup_path_set. specialize (IH (alist_lookup c es) p Hd).
      by rewrite E in IH.
    + cbn. by rewrite alist_lookup_set_ne.
  - destruct create; [|done].
    destruct (at_path true q leaf None) as [r child] eqn:E. cbn [snd].
    destruct (String.eqb_spec a c) as [->|Hne].
    + rewrite (lookup_path_set c p child []).
      * cbn. by rewrite lookup_path_None.
      * specialize (IH None p Hd). by rewrite E in IH.
    + cbn. rewrite alist_lookup_set_ne by done. cbn. by rewrite lookup_path_None.
Qed.

Lemma at_path_frame_shallow create q leaf t p :
  shallow leaf → is_prefix p q = false →
  lookup_path p (at_path create q leaf t).2 = lookup_path p t.
Proof.
  intros Hleaf. revert t p.
  induction q as [|c q IH]; intros t [|a p]; cbn [is_prefix]; try done.
  { intros _. by apply Hleaf. }
  intros Hd. cbn [at_path].
  destruct t as [[d m|es]|]; [done| |].
  - destruct (at_path create q leaf (alist_lookup c es)) as [r child] eqn:E.
    cbn [snd]. destruct (String.eqb_spec a c) as [->|Hne].
    + apply lookup_path_set. specialize (IH (alist_lookup c es) p Hd).
      by rewrite E in IH.
    + cbn. by rewrite alist_lookup_set_ne.
  - destruct create; [|done].
    destruct (at_path true q leaf None) as [r child] eqn:E. cbn [snd].
    destruct (String.eqb_spec a c) as [->|Hne].
    + rewrite (lookup_path_set c p child []).
      * cbn. by rewrite lookup_path_None.
      * specialize (IH None p Hd). by rewrite E in IH.
    + cbn. rewrite alist_lookup_set_ne by done. cbn. by rewrite lookup_path_None.
Qed.

Lemma at_path_ok create q leaf t t' :
  (∀ x y, leaf x = (Ok tt, y) → is_Some y) →
  at_path create q leaf t = (Ok tt, t') →
  leaf (lookup_path q t) = (Ok tt, lookup_path q t').
Proof.
  intros Hleaf. revert t t'. induction q as [|c q IH]; intros t t'; [done|].
  cbn [at_path]. destruct t as [[d m|es]|]; [done| |].
  - destruct (at_path create q leaf (alist_lookup c es)) as [r child] eqn:E.
    intros [= -> <-]. specialize (IH _ _ E). cbn [lookup_path].
    rewrite IH. destruct (Hleaf _ _ IH) as [v Hv].
    destruct child as [w|].
    + cbn. by rewrite alist_lookup_insert_eq.
    + by rewrite lookup_path_None in Hv.
  - destruct create; [|done].
    destruct (at_path true q leaf None) as [r child] eqn:E.
    intros [= -> <-]. specialize (IH _ _ E). cbn [lookup_path].
    rewrite lookup_path_None in *.
    rewrite IH. destruct (Hleaf _ _ IH) as [v Hv].
    destruct child as [w|].
    + cbn. by rewrite String.eqb_refl.
    + by rewrite lookup_path_None in Hv.
Qed.

Lemma shallow_mkdir_leaf :
  shallow (λ t, match t with
                | None => (Ok tt, Some (Dir []))
                | Some (Dir _) => (Ok tt, t)
                | Some (File _ _) => (Raise FileExistsError, t)
                end).
Proof. intros [[?|?]|] [|a r] Hr; try done. cbn. by rewrite lookup_path_None. Qed.

Lemma shallow_write_leaf nm data :
  shallow (λ t, match t with
                | None => (Ok tt, Some (File data nm))
                | Some (File _ m) => (Ok tt, Some (File data m))
                | Some (Dir _) => (Raise IsADirectoryError, t)
                end).
Proof. by intros [[?|?]|] [|a r] Hr. Qed.

Lemma shallow_chmod_leaf mode :
  shallow (λ t, match t with
                | None => (Raise FileNotFoundError, t)
                | Some (File d _) => (Ok tt, Some (File d mode))
                | Some (Dir _) => (Ok tt, t)
                end).
Proof. by intros [[?|?]|] [|a r] Hr. Qed.

Lemma is_prefix_removelast p q :
  is_prefix p q = false → is_prefix p (removelast q) = false.
Proof.
  revert p. induction q as [|c q IH]; intros [|a p]; cbn; try done.
  destruct q as [|c' q]; [cbn; by destruct (String.eqb a c), p|].
  intros Hp. cbn [is_prefix]. destruct (String.eqb a c); [|done].
  cbn in *. by apply IH.
Qed.

Lemma diverge_not_prefix p q : diverge p q = true → is_prefix p q = false.
Proof.
  revert q. induction p as [|a p IH]; intros [|c q]; cbn; try done.
  destruct (String.eqb a c); [apply IH | done].
Qed.

Lemma on_root_root {A} (m : M fs A) self :
  FilesystemAdapter.root (FilesystemAdapter.on_root m self).2
  = (m (FilesystemAdapter.root self)).2.
Proof. unfold FilesystemAdapter.on_root. by destruct (m _). Qed.

Lemma on_root_dry_run {A} (m : M fs A) self :
  FilesystemAdapter.dry_run (FilesystemAdapter.on_root m self).2
  = FilesystemAdapter.dry_run self.
Proof. unfold FilesystemAdapter.on_root. by destruct (m _). Qed.

Lemma on_root_fst {A} (m : M fs A) self :
  (FilesystemAdapter.on_root m self).1 = (m (FilesystemAdapter.root self)).1.
Proof. unfold FilesystemAdapter.on_root. by destruct (m _). Qed.

Lemma mkdir_p_frame q t p :
  is_prefix p q = false → lookup_path p (mkdir_p q t).2 = lookup_path p t.
Proof. apply at_path_frame_shallow, shallow_mkdir_leaf. Qed.

Lemma mkdir_parent_frame q t p :
  is_prefix p q = false →
  lookup_path p (FilesystemAdapter.mkdir_parent q t).2 = lookup_path p t.
Proof.
  intros Hp. destruct q as [|c q]; [done|].
  apply mkdir_p_frame. by apply (is_prefix_removelast p (c :: q)).
Qed.

Lemma write_bytes_frame nm q data t p :
  is_prefix p q = false → lookup_path p (write_bytes nm q data t).2 = lookup_path p t.
Proof. apply at_path_frame_shallow, shallow_write_leaf. Qed.

Lemma chmod_frame q mode t p :
  is_prefix p q = false → lookup_path p (chmod q mode t).2 = lookup_path p t.
Proof. apply at_path_frame_shallow, shallow_chmod_leaf. Qed.

Section fs_adapter.
Context `{Platform}.

Lemma write_file_frame path data mode self p :
  is_prefix p (FilesystemAdapter._full_path path) = false →
  lookup_path p (FilesystemAdapter.root (FilesystemAdapter.write_file path data mode self).2)
  = lookup_path p (FilesystemAdapter.root self).
Proof.
  intros Hp. unfold FilesystemAdapter.write_file.
  destruct (FilesystemAdapter.dry_run self); [done|].
  rewrite on_root_root.
  apply (bind_snd_frame (lookup_path p)); [by apply mkdir_parent_frame|].
  intros _ t. apply (bind_snd_frame (lookup_path p)); [by apply write_bytes_frame|].
  intros _ t'. destruct mode; [by apply chmod_frame | done].
Qed.

Lemma write_directory_frame path data self p :
  diverge p (FilesystemAdapter._full_path path) = true →
  lookup_path p (FilesystemAdapter.root (FilesystemAdapter.write_directory path data self).2)
  = lookup_path p (FilesystemAdapter.root self).
Proof.
  intros Hp. unfold FilesystemAdapter.write_directory.
  destruct (FilesystemAdapter.dry_run self); [done|].
  rewrite on_root_root.
  apply (bind_snd_frame (lookup_path p)).
  { by apply mkdir_p_frame, diverge_not_prefix. }
  intros _ t. destruct (tar_open data); [|done].
  by apply at_path_frame_diverge.
Qed.

Lemma write_file_dry_run path data mode self :
  FilesystemAdapter.dry_run (FilesystemAdapter.write_file path data mode self).2
  = FilesystemAdapter.dry_run self.
Proof.
  unfold FilesystemAdapter.write_file.
  destruct (FilesystemAdapter.dry_run self) eqn:E; [done|].
  by rewrite on_root_dry_run.
Qed.

Lemma write_directory_dry_run path data self :
  FilesystemAdapter.dry_run (FilesystemAdapter.write_directory path data self).2
  = FilesystemAdapter.dry_run self.
Proof.
  unfold FilesystemAdapter.write_directory.
  destruct (FilesystemAdapter.dry_run self) eqn:E; [done|].
  by rewrite on_root_dry_run.
Qed.

Lemma write_file_ok path data mode self self' :
  FilesystemAdapter.dry_run self = false →
  FilesystemAdapter.write_file path data (Some mode) self = (Ok tt, self') →
  lookup_path (FilesystemAdapter._full_path path) (FilesystemAdapter.root self')
  = Some (File data mode).
Proof.
  intros Hdry. unfold FilesystemAdapter.write_file. rewrite Hdry.
  unfold FilesystemAdapter.on_root.
  destruct (bind _ _ (FilesystemAdapter.root self)) as [r t'] eqn:E.
  intros [= -> <-]. cbn [FilesystemAdapter.root].
  apply bind_ok in E as (_ & t1 & _ & E).
  apply bind_ok in E as ([] & t2 & E2 & E3).
  apply at_path_ok in E2; [|by intros [[?|?]|] y [= <-]].
  apply at_path_ok in E3; [|by intros [[?|?]|] y [= <-]].
  destruct (lookup_path _ t1) as [[d m|es]|]; try done.
  - injection E2 as E2. rewrite <- E2 in E3. by injection E3 as <-.
  - injection E2 as E2. rewrite <- E2 in E3. by injection E3 as <-.
Qed.
End fs_adapter.


(** ** Handlers and loops *)

Section handlers_keep.
Context {S D : Type} `{!StateAdapter S, !StateAdapter D} (P : D → Prop).
Hypothesis keeps_write_file : ∀ p data mode, keeps P (write_file (A:=D) p data mode).
Hypothesis keeps_write_directory : ∀ p data, keeps P (write_directory (A:=D) p data).

Ltac keeps_tac :=
  repeat first
    [ apply keeps_ret | apply keeps_raise | apply keeps_decode
    | apply keeps_encode | apply keeps_write_file
    | apply keeps_write_directory
    | apply keeps_bind; [|intros ?] | apply keeps_if
    | apply keeps_for_each; intros ? ].

Lemma keeps_handle_special_component c (source : S) :
  keeps P (StateManager._handle_special_component (D:=D) c source).
Proof.
  unfold StateManager._handle_special_component,
    StateManager.handle_admin_shadow, StateManager.handle_ssh_config,
    StateManager.handle_home_directories.
  keeps_tac.
  match goal with |- context [filter ?f ?l] => destruct (filter f l) end; keeps_tac.
Qed.

Lemma keeps_standard_copy c (source : S) success :
  keeps P (StateManager.standard_copy (D:=D) c source success).
Proof. unfold StateManager.standard_copy, StateManager.copy_file,
    StateManager.copy_directory. keeps_tac.
Qed.

Lemma keeps_copy_component (source : S) success c :
  keeps P (StateManager.copy_component (D:=D) source success c).
Proof.
  unfold StateManager.copy_component. apply keeps_bind.
  - apply keeps_if; [apply keeps_handle_special_component | apply keeps_ret].
  - intros []; [apply keeps_ret | apply keeps_standard_copy].
Qed.

Lemma keeps_restore_component (source : S) success c :
  keeps P (StateManager.restore_component (D:=D) source success c).
Proof.
  unfold StateManager.restore_component.
  apply keeps_if; [apply keeps_ret | apply keeps_standard_copy].
Qed.
End handlers_keep.

Section ssh.
Context {S D : Type} `{!StateAdapter S, !StateAdapter D}.
Context (P : D → Prop) (may_raise : Prop).
Hypothesis write_file_behaves :
  ∀ p data mode, behaves P may_raise tt (write_file (A:=D) p data mode).
Hypothesis write_directory_behaves :
  ∀ p data, behaves P may_raise tt (write_directory (A:=D) p data).

Lemma handle_ssh_config_behaves c (source : S) :
  behaves P may_raise true (StateManager.handle_ssh_config (D:=D) c source).
Proof.
  unfold StateManager.handle_ssh_config.
  apply (behaves_bind _ _ _ _ tt).
  { apply behaves_if; [apply write_file_behaves | apply behaves_ret]. }
  apply (behaves_bind _ _ _ _ tt).
  { apply behaves_if; [apply write_directory_behaves | apply behaves_ret]. }
  apply (behaves_bind _ _ _ _ tt); [|apply behaves_ret].
  apply behaves_for_each; intros kt. apply behaves_for_each; intros sf.
  apply behaves_if; [apply write_file_behaves | apply behaves_ret].
Qed.
End ssh.

Section ssh_modes.
Context `{Platform} {S : Type} `{!StateAdapter S}.

Lemma key_step_frame source key_path mode s p :
  is_prefix p (FilesystemAdapter._full_path key_path) = false →
  lookup_path p (FilesystemAdapter.root (key_step source key_path mode s).2)
  = lookup_path p (FilesystemAdapter.root s).
Proof.
  intros Hp. unfold key_step. destruct (py_bool _); [|done].
  by apply write_file_frame.
Qed.

Lemma key_step_dry_run source key_path mode s :
  FilesystemAdapter.dry_run (key_step source key_path mode s).2
  = FilesystemAdapter.dry_run s.
Proof.
  unfold key_step. destruct (py_bool _); [|done]. apply write_file_dry_run.
Qed.

Lemma key_step_ok source key_path mode s s' :
  FilesystemAdapter.dry_run s = false →
  py_bool (read_file source key_path) = true →
  key_step source key_path mode s = (Ok tt, s') →
  lookup_path (FilesystemAdapter._full_path key_path) (FilesystemAdapter.root s')
  = Some (File (the (read_file source key_path)) mode).
Proof.
  intros Hdry Hb. unfold key_step. rewrite Hb. by apply write_file_ok.
Qed.

Lemma handle_ssh_config_keys (source : S) s0 s6 :
  FilesystemAdapter.dry_run s0 = false →
  StateManager.handle_ssh_config ssh_infrastructure source s0 = (Ok true, s6) →
  Forall (λ '(key_path, mode),
            py_bool (read_file source key_path) = true →
            lookup_path (FilesystemAdapter._full_path key_path)
              (FilesystemAdapter.root s6)
            = Some (File (the (read_file source key_path)) mode))
    [("/etc/ssh/ssh_host_rsa_key", mode_0o600);
     ("/etc/ssh/ssh_host_rsa_key.pub", mode_0o644);
     ("/etc/ssh/ssh_host_ecdsa_key", mode_0o600);
     ("/etc/ssh/ssh_host_ecdsa_key.pub", mode_0o644);
     ("/etc/ssh/ssh_host_ed25519_key", mode_0o600);
     ("/etc/ssh/ssh_host_ed25519_key.pub", mode_0o644)].
Proof.
  intros Hdry Hrun. unfold StateManager.handle_ssh_config in Hrun.
  apply bind_ok in Hrun as ([] & s1 & H1 & Hrun).
  apply bind_ok in Hrun as ([] & s2 & H2 & Hrun).
  apply bind_ok in Hrun as ([] & s3 & Hkeys & [= <-]).
  assert (Hdry1 : FilesystemAdapter.dry_run s1 = false).
  { rewrite <- Hdry. apply (f_equal snd) in H1. cbn [snd] in H1. rewrite <- H1.
    destruct (py_bool (read_file _ _)); [apply write_file_dry_run | done]. }
  assert (Hdry2 : FilesystemAdapter.dry_run s2 = false).
  { rewrite <- Hdry1. apply (f_equal snd) in H2. cbn [snd] in H2. rewrite <- H2.
    destruct (py_bool (read_directory _ _)); [apply write_directory_dry_run | done]. }
  clear H1 H2 Hdry Hdry1.
  change (for_each _ _ s2) with
    (((key_step source "/etc/ssh/ssh_host_rsa_key" mode_0o600 ;;;
       key_step source "/etc/ssh/ssh_host_rsa_key.pub" mode_0o644 ;;; ret tt) ;;;
      (key_step source "/etc/ssh/ssh_host_ecdsa_key" mode_0o600 ;;;
       key_step source "/etc/ssh/ssh_host_ecdsa_key.pub" mode_0o644 ;;; ret tt) ;;;
      (key_step source "/etc/ssh/ssh_host_ed25519_key" mode_0o600 ;;;
       key_step source "/etc/ssh/ssh_host_ed25519_key.pub" mode_0o644 ;;; ret tt) ;;;
      ret tt) s2) in Hkeys.
  apply bind_ok in Hkeys as ([] & t2 & Hrsa & Hkeys).
  apply bind_ok in Hkeys as ([] & t4 & Hecdsa & Hkeys).
  apply bind_ok in Hkeys as ([] & t6 & Hed & [= <-]).
  apply bind_ok in Hrsa as ([] & t1 & K1 & Hrsa).
  apply bind_ok in Hrsa as ([] & ? & K2 & [= ->]).
  apply bind_ok in Hecdsa as ([] & t3 & K3 & Hecdsa).
  apply bind_ok in Hecdsa as ([] & ? & K4 & [= ->]).
  apply bind_ok in Hed as ([] & t5 & K5 & Hed).
  apply bind_ok in Hed as ([] & ? & K6 & [= ->]).
  pose proof (key_step_dry_run source "/etc/ssh/ssh_host_rsa_key" mode_0o600 s2) as D1.
  rewrite K1 in D1; cbn [snd] in D1; rewrite Hdry2 in D1.
  pose proof (key_step_dry_run source "/etc/ssh/ssh_host_rsa_key.pub" mode_0o644 t1) as D2.
  rewrite K2 in D2; cbn [snd] in D2; rewrite D1 in D2.
  pose proof (key_step_dry_run source "/etc/ssh/ssh_host_ecdsa_key" mode_0o600 t2) as D3.
  rewrite K3 in D3; cbn [snd] in D3; rewrite D2 in D3.
  pose proof (key_step_dry_run source "/etc/ssh/ssh_host_ecdsa_key.pub" mode_0o644 t3) as D4.
  rewrite K4 in D4; cbn [snd] in D4; rewrite D3 in D4.
  pose proof (key_step_dry_run source "/etc/ssh/ssh_host_ed25519_key" mode_0o600 t4) as D5.
  rewrite K5 in D5; cbn [snd] in D5; rewrite D4 in D5.
  assert (F : ∀ p kp m s s', key_step source kp m s = (Ok tt, s') →
             is_prefix p (FilesystemAdapter._full_path kp) = false →
             lookup_path p (FilesystemAdapter.root s')
             = lookup_path p (FilesystemAdapter.root s)).
  { intros p kp m s s' E Hp. rewrite <- (key_step_frame source kp m s p Hp).
    by rewrite E. }
  repeat constructor; intros Hb.
  - rewrite (F _ _ _ _ _ K6), (F _ _ _ _ _ K5), (F _ _ _ _ _ K4),
      (F _ _ _ _ _ K3), (F _ _ _ _ _ K2) by by vm_compute.
    by apply (key_step_ok source _ _ s2).
  - rewrite (F _ _ _ _ _ K6), (F _ _ _ _ _ K5), (F _ _ _ _ _ K4),
      (F _ _ _ _ _ K3) by by vm_compute.
    by apply (key_step_ok source _ _ t1).
  - rewrite (F _ _ _ _ _ K6), (F _ _ _ _ _ K5), (F _ _ _ _ _ K4)
      by by vm_compute.
    by apply (key_step_ok source _ _ t2).
  - rewrite (F _ _ _ _ _ K6), (F _ _ _ _ _ K5) by by vm_compute.
    by apply (key_step_ok source _ _ t3).
  - rewrite (F _ _ _ _ _ K6) by by vm_compute.
    by apply (key_step_ok source _ _ t4).
  - by apply (key_step_ok source _ _ t5).
Qed.
End ssh_modes.

Section loops.
Context {S D : Type} `{!StateAdapter S, !StateAdapter D}.
Context (P : D → Prop) (may_raise : Prop).
Hypothesis write_file_behaves :
  ∀ p data mode, behaves P may_raise tt (write_file (A:=D) p data mode).
Hypothesis write_directory_behaves :
  ∀ p data, behaves P may_raise tt (write_directory (A:=D) p data).

Lemma copy_file_behaves (source : S) p req acc :
  behaves P may_raise (acc && (py_bool (read_file source p) || negb req))
    (StateManager.copy_file (D:=D) source p req acc).
Proof.
  unfold StateManager.copy_file. destruct (py_bool _); cbn [orb negb].
  - rewrite andb_true_r. apply (behaves_bind _ _ _ _ tt);
      [apply write_file_behaves | apply behaves_ret].
  - destruct req; cbn; rewrite ?andb_false_r, ?andb_true_r; apply behaves_ret.
Qed.

Lemma copy_directory_behaves (source : S) p req acc :
  behaves P may_raise (acc && (py_bool (read_directory source p) || negb req))
    (StateManager.copy_directory (D:=D) source p req acc).
Proof.
  unfold StateManager.copy_directory. destruct (py_bool _); cbn [orb negb].
  - rewrite andb_true_r. apply (behaves_bind _ _ _ _ tt);
      [apply write_directory_behaves | apply behaves_ret].
  - destruct req; cbn; rewrite ?andb_false_r, ?andb_true_r; apply behaves_ret.
Qed.

Lemma copy_sonic_config_behaves (source : S) acc :
  behaves P may_raise (acc && py_bool (read_file source "/etc/sonic/config_db.json"))
    (StateManager.copy_component (D:=D) source acc sonic_config).
Proof.
  pose proof (copy_file_behaves source "/etc/sonic/config_db.json" true acc) as Hc.
  cbn [negb] in Hc. rewrite orb_false_r in Hc. exact Hc.
Qed.

Lemma copy_system_mounts_behaves (source : S) acc :
  behaves P may_raise (acc && py_bool (read_file source "/etc/fstab"))
    (StateManager.copy_component (D:=D) source acc system_mounts).
Proof.
  pose proof (copy_file_behaves source "/etc/fstab" true acc) as Hc.
  cbn [negb] in Hc. rewrite orb_false_r in Hc. exact Hc.
Qed.

Lemma copy_fan_control_behaves (source : S) acc :
  behaves P may_raise acc
    (StateManager.copy_component (D:=D) source acc fan_control).
Proof.
  pose proof (copy_file_behaves source "/etc/sonic/custom-fan/fancontrol" false acc) as Hc.
  cbn [negb] in Hc. rewrite orb_true_r, andb_true_r in Hc. exact Hc.
Qed.

Lemma copy_ssh_infrastructure_behaves (source : S) acc :
  behaves P may_raise acc
    (StateManager.copy_component (D:=D) source acc ssh_infrastructure).
Proof.
  change (StateManager.copy_component source acc ssh_infrastructure) with
    (handled <~ StateManager.handle_ssh_config (D:=D) ssh_infrastructure source ;;
     if handled then ret acc
     else StateManager.standard_copy ssh_infrastructure source acc).
  apply (behaves_bind _ _ _ _ true); [|apply behaves_ret].
  by apply handle_ssh_config_behaves.
Qed.

Lemma copy_user_data_behaves (source : S) acc :
  behaves P may_raise (acc && py_bool (read_directory source "/home"))
    (StateManager.copy_component (D:=D) source acc user_data).
Proof.
  change (StateManager.copy_component source acc user_data) with
    (handled <~ StateManager.handle_home_directories (D:=D) user_data source ;;
     if handled then ret acc
     else StateManager.copy_directory source "/home" true acc).
  unfold StateManager.handle_home_directories. cbn [path user_data].
  destruct (py_bool (read_directory source "/home")) eqn:Hb.
  - rewrite andb_true_r.
    apply (behaves_bind _ _ _ _ true); [|apply behaves_ret].
    apply (behaves_bind _ _ _ _ tt);
      [apply write_directory_behaves | apply behaves_ret].
  - rewrite andb_false_r.
    apply (behaves_bind _ _ _ _ false); [apply behaves_ret|].
    pose proof (copy_directory_behaves source "/home" true acc) as Hc.
    rewrite Hb in Hc. cbn in Hc. by rewrite andb_false_r in Hc.
Qed.

Lemma copy_admin_auth_behaves (source : S) acc :
  may_raise ∨ is_Some (utf8_decode (the (read_file source "/etc/shadow"))) →
  behaves P may_raise (acc && py_bool (read_file source "/etc/shadow"))
    (StateManager.copy_component (D:=D) source acc admin_auth).
Proof.
  intros Hdec.
  change (StateManager.copy_component source acc admin_auth) with
    (handled <~ StateManager.handle_admin_shadow (D:=D) admin_auth source ;;
     if handled then ret acc
     else StateManager.copy_file source "/etc/shadow" true acc).
  unfold StateManager.handle_admin_shadow. cbn [path admin_auth].
  pose proof (copy_file_behaves source "/etc/shadow" true acc) as Hc.
  destruct (py_bool (read_file source "/etc/shadow")) eqn:Hb; cbn in Hc.
  2:{ apply (behaves_bind _ _ _ _ false); [apply behaves_ret | done]. }
  rewrite andb_true_r in *. unfold decode.
  destruct (utf8_decode _) as [decoded|] eqn:Hd.
  2:{ destruct Hdec as [Hr|[? ?]]; [|done]. intros s Hs. right. split; [done|].
      by exists UnicodeDecodeError. }
  apply utf8_decode_encodable, (splitlines_Forall encodable) in Hd.
  change (bind (bind (ret decoded) ?k) ?k') with (bind (k decoded) k').
  cbn beta zeta.
  match goal with |- context [filter ?f ?l] => set (admin_lines := filter f l) end.
  assert (Hsub : admin_lines ⊆ splitlines decoded) by apply list_subseteq_filter.
  destruct admin_lines as [|line rest].
  { apply (behaves_bind _ _ _ _ false); [apply behaves_ret | done]. }
  assert (Hline : Forall encodable line).
  { rewrite Forall_forall in Hd. apply Hd, Hsub. by left. }
  apply utf8_encode_is_Some in Hline as [encoded He].
  unfold encode. rewrite He.
  apply (behaves_bind _ _ _ _ true); [|apply behaves_ret].
  change (bind (ret encoded) ?k) with (k encoded).
  apply (behaves_bind _ _ _ _ tt); [apply write_file_behaves | apply behaves_ret].
Qed.

Lemma copy_components_behaves (source : S) :
  may_raise ∨ is_Some (utf8_decode (the (read_file source "/etc/shadow"))) →
  behaves P may_raise (copy_ok source)
    (StateManager.copy_components (D:=D) source).
Proof.
  intros Hdec. unfold StateManager.copy_components, copy_ok.
  cbn [for_fold values fmap list_fmap SONIC_STATE_COMPONENTS snd].
  eapply behaves_bind; [apply copy_sonic_config_behaves|].
  eapply behaves_bind; [apply copy_user_data_behaves|].
  eapply behaves_bind; [apply copy_ssh_infrastructure_behaves|].
  eapply behaves_bind; [apply copy_system_mounts_behaves|].
  eapply behaves_bind; [apply copy_fan_control_behaves|].
  eapply behaves_bind; [by apply copy_admin_auth_behaves|].
  apply behaves_ret.
Qed.

Lemma restore_components_behaves (backup : S) :
  behaves P may_raise (restore_ok backup)
    (StateManager.restore_components (D:=D) backup).
Proof.
  unfold StateManager.restore_components, restore_ok.
  cbn [for_fold values fmap list_fmap SONIC_STATE_COMPONENTS snd].
  eapply behaves_bind.
  { pose proof (copy_file_behaves backup "/etc/sonic/config_db.json" true true) as Hc.
    cbn [negb] in Hc. rewrite orb_false_r in Hc. exact Hc. }
  eapply behaves_bind.
  { pose proof (copy_directory_behaves backup "/home" true
      (true && py_bool (read_file backup "/etc/sonic/config_db.json"))) as Hc.
    cbn [negb] in Hc. rewrite orb_false_r in Hc. exact Hc. }
  eapply behaves_bind.
  { pose proof (copy_directory_behaves backup "/etc/ssh" true
      (true && py_bool (read_file backup "/etc/sonic/config_db.json")
       && py_bool (read_directory backup "/home"))) as Hc.
    cbn [negb] in Hc. rewrite orb_false_r in Hc. exact Hc. }
  eapply behaves_bind.
  { pose proof (copy_file_behaves backup "/etc/fstab" true
      (true && py_bool (read_file backup "/etc/sonic/config_db.json")
       && py_bool (read_directory backup "/home")
       && py_bool (read_directory backup "/etc/ssh"))) as Hc.
    cbn [negb] in Hc. rewrite orb_false_r in Hc. exact Hc. }
  eapply behaves_bind.
  { pose proof (copy_file_behaves backup "/etc/sonic/custom-fan/fancontrol" false
      (true && py_bool (read_file backup "/etc/sonic/config_db.json")
       && py_bool (read_directory backup "/home")
       && py_bool (read_directory backup "/etc/ssh")
       && py_bool (read_file backup "/etc/fstab"))) as Hc.
    cbn [negb] in Hc. rewrite orb_true_r, andb_true_r in Hc. exact Hc. }
  eapply behaves_bind; [apply behaves_ret|].
  apply behaves_ret.
Qed.

End loops.

(** ** Adapters and operations *)

Section adapters_behave.
Context `{Platform}.

Lemma fs_write_file_behaves p data mode :
  behaves (λ _ : FilesystemAdapter.t, True) True tt (write_file p data mode).
Proof. apply behaves_unit. Qed.

Lemma fs_write_directory_behaves p data :
  behaves (λ _ : FilesystemAdapter.t, True) True tt (write_directory p data).
Proof. apply behaves_unit. Qed.

Lemma dry_write_file_behaves root p data mode :
  behaves (eq (FilesystemAdapter.__init__ root true)) False tt
    (write_file p data mode).
Proof. intros s <-. by left. Qed.

Lemma dry_write_directory_behaves root p data :
  behaves (eq (FilesystemAdapter.__init__ root true)) False tt
    (write_directory p data).
Proof. intros s <-. by left. Qed.

Lemma backup_write_file_behaves (P : bool → Prop) p data mode :
  behaves (λ s, P (BackupAdapter.dry_run s)) False tt
    (write_file (A:=BackupAdapter.t) p data mode).
Proof. intros s Hs. by left. Qed.

Lemma backup_write_directory_behaves (P : bool → Prop) p data :
  behaves (λ s, P (BackupAdapter.dry_run s)) False tt
    (write_directory (A:=BackupAdapter.t) p data).
Proof. intros s Hs. by left. Qed.

Lemma behaves_weaken {St A} (P : St → Prop) (Q : Prop) (v : A) (m : M St A) :
  behaves P False v m → behaves P Q v m.
Proof. intros Hm s Hs. destruct (Hm s Hs) as [?|[[] _]]. by left. Qed.


Lemma values_types c :
  c ∈ values → component_type c = "file" ∨ component_type c = "directory".
Proof.
  unfold values; cbn. rewrite !elem_of_cons, elem_of_nil.
  intros [->|[->|[->|[->|[->|[->|[]]]]]]]; cbn; auto.
Qed.

Lemma validate_component_spec source success c :
  component_type c = "file" ∨ component_type c = "directory" →
  StateManager.validate_component source success c = success && present source c.
Proof.
  unfold StateManager.validate_component, present.
  intros [Hc|Hc]; rewrite Hc; cbn -[exists_];
    destruct (exists_ source (path c)), (required c), success; reflexivity.
Qed.

Lemma validate_fold source success cs :
  (∀ c, c ∈ cs → component_type c = "file" ∨ component_type c = "directory") →
  foldl (StateManager.validate_component source) success cs
  = success && forallb (present source) cs.
Proof.
  revert success. induction cs as [|c cs IH]; intros success Hty; cbn [foldl forallb].
  - by rewrite andb_true_r.
  - rewrite validate_component_spec by (apply Hty; left).
    rewrite IH by (intros; apply Hty; by right).
    by rewrite andb_assoc.
Qed.

Lemma backup_state_result (self : StateManager.t) source_root backup_path file :
  let source := FilesystemAdapter.__init__ source_root (StateManager.dry_run self) in
  let r := (StateManager.backup_state self source_root backup_path file).1 in
  (r = Ok (copy_ok source) ∨ ∃ e, r = Raise e) ∧
  (StateManager.dry_run self = true →
   is_Some (utf8_decode (the (read_file source "/etc/shadow"))) →
   r = Ok (copy_ok source)).
Proof.
  cbn zeta. unfold StateManager.backup_state.
  set (source := FilesystemAdapter.__init__ source_root _).
  set (backup := BackupAdapter.__init__ file backup_path "w" _).
  split.
  - pose proof (copy_components_behaves (λ _, True) True
      (λ p d m, behaves_weaken _ _ _ _ (backup_write_file_behaves (λ _, True) p d m))
      (λ p d, behaves_weaken _ _ _ _ (backup_write_directory_behaves (λ _, True) p d))
      source (or_introl I) backup I) as Hb.
    destruct (StateManager.copy_components source backup) as [[success|e] backup'];
      cbn [fst snd] in *; [|eauto].
    destruct Hb as [[[= ->] _]|[_ [e [=]]]].
    destruct (BackupAdapter.save_backup backup' file) as [[[]|e] file']; cbn; eauto.
  - intros Hdry Hdec.
    assert (Hb0 : BackupAdapter.dry_run backup = true).
    { subst backup. rewrite Hdry. by destruct file. }
    pose proof (copy_components_behaves (λ s, BackupAdapter.dry_run s = true) False
      (backup_write_file_behaves (λ d, d = true))
      (backup_write_directory_behaves (λ d, d = true))
      source (or_intror Hdec) backup Hb0) as Hb.
    destruct (StateManager.copy_components source backup) as [[success|e] backup'];
      cbn [fst snd] in *.
    + destruct Hb as [[[= ->] Hd']|[[] _]].
      unfold BackupAdapter.save_backup. by rewrite Hd'.
    + by destruct Hb as [[? _]|[[] _]].
Qed.

Lemma migrate_state_result (self : StateManager.t) source_root target_root :
  let source := FilesystemAdapter.__init__ source_root (StateManager.dry_run self) in
  let r := (StateManager.migrate_state self source_root target_root).1 in
  (r = Ok (copy_ok source) ∨ ∃ e, r = Raise e) ∧
  (StateManager.dry_run self = true →
   is_Some (utf8_decode (the (read_file source "/etc/shadow"))) →
   r = Ok (copy_ok source)).
Proof.
  cbn zeta. unfold StateManager.migrate_state.
  set (source := FilesystemAdapter.__init__ source_root _).
  set (target := FilesystemAdapter.__init__ target_root _).
  split.
  - pose proof (behaves_yields True (copy_ok source)
      (StateManager.copy_components source) target
      (copy_components_behaves _ _ fs_write_file_behaves
         fs_write_directory_behaves source (or_introl I))) as Hb.
    by destruct (StateManager.copy_components source target) as [r target'].
  - intros Hdry Hdec. subst target. rewrite Hdry.
    pose proof (behaves_returns _ (copy_ok source)
      (StateManager.copy_components source) _
      (copy_components_behaves _ _ (dry_write_file_behaves target_root)
         (dry_write_directory_behaves target_root) source (or_intror Hdec))
      eq_refl) as Hb.
    by destruct (StateManager.copy_components source _) as [r target'].
Qed.

Lemma restore_state_result (self : StateManager.t) backup_path file target_root :
  let backup :=
    BackupAdapter.__init__ file backup_path "r" (StateManager.dry_run self) in
  let r := (StateManager.restore_state self backup_path file target_root).1 in
  (r = Ok (restore_ok backup) ∨ ∃ e, r = Raise e) ∧
  (StateManager.dry_run self = true → r = Ok (restore_ok backup)).
Proof.
  cbn zeta. unfold StateManager.restore_state.
  set (backup := BackupAdapter.__init__ file backup_path "r" _).
  set (target := FilesystemAdapter.__init__ target_root _).
  split.
  - pose proof (behaves_yields True (restore_ok backup)
      (StateManager.restore_components backup) target
      (restore_components_behaves _ _ fs_write_file_behaves
         fs_write_directory_behaves backup)) as Hb.
    by destruct (StateManager.restore_components backup target) as [r target'].
  - intros Hdry. subst target. rewrite Hdry.
    pose proof (behaves_returns _ (restore_ok backup)
      (StateManager.restore_components backup) _
      (restore_components_behaves _ _ (dry_write_file_behaves target_root)
         (dry_write_directory_behaves target_root) backup)
      eq_refl) as Hb.
    by destruct (StateManager.restore_components backup _) as [r target'].
Qed.

Lemma backup_write_file_keeps (Q : bool → Prop) p data mode :
  keeps (λ s, Q (BackupAdapter.dry_run s))
    (write_file (A:=BackupAdapter.t) p data mode).
Proof. by intros s Hs. Qed.

Lemma backup_write_directory_keeps (Q : bool → Prop) p data :
  keeps (λ s, Q (BackupAdapter.dry_run s))
    (write_directory (A:=BackupAdapter.t) p data).
Proof. by intros s Hs. Qed.

Lemma dry_write_file_keeps root p data mode :
  keeps (eq (FilesystemAdapter.__init__ root true)) (write_file p data mode).
Proof. by intros s <-. Qed.

Lemma dry_write_directory_keeps root p data :
  keeps (eq (FilesystemAdapter.__init__ root true)) (write_directory p data).
Proof. by intros s <-. Qed.

End adapters_behave.

Section live_backup.
Context `{Platform}.

(** A backup that is not a dry run never returns: either the credential
    file does not decode and the file at [backup_path] is left alone, or
    [save_backup] raises on [tempfile.BytesIO] just after creating the
    file, which then holds no member and loads as an empty backup. *)
Lemma backup_state_live_raises (source_root : fs) (backup_path : string)
    (file : option backup_file) :
  let r := StateManager.backup_state live source_root backup_path file in
  (r = (Raise AttributeError, Some (TarGz [])) ∨ ∃ e, r = (Raise e, file)) ∧
  BackupAdapter._data
    (BackupAdapter.__init__ (Some (TarGz [])) backup_path "r" false) = ∅.
Proof.
  cbn zeta. split; [|reflexivity].
  unfold StateManager.backup_state, StateManager.copy_components.
  change (StateManager.dry_run live) with false.
  assert (Hb0 : BackupAdapter.dry_run
                  (BackupAdapter.__init__ file backup_path "w" false) = false)
    by by destruct file.
  pose proof (keeps_for_fold (λ s, BackupAdapter.dry_run s = false)
    (StateManager.copy_component (FilesystemAdapter.__init__ source_root false))
    true values
    (keeps_copy_component _ (backup_write_file_keeps (λ d, d = false))
       (backup_write_directory_keeps (λ d, d = false)) _)
    _ Hb0) as Hk.
  destruct (for_fold _ true values _) as [[success|e] backup'];
    cbn [snd] in Hk; [|eauto].
  left. unfold BackupAdapter.save_backup. by rewrite Hk.
Qed.

End live_backup.

(** * Properties of the specification *)

Section specification.
Context `{Platform}.

(** C2 (as amended).  [validate_state] returns true exactly when every
    required component's path exists.  [backup_state] and [migrate_state],
    when they return, return whether the source gives truthy data for the
    configuration file, the home tree, the mount table and the credential
    file; the SSH bundle and the optional fan configuration never enter the
    result.  [restore_state], when it returns, returns whether the backup
    holds truthy entries for the configuration file, the home tree, the SSH
    directory and the mount table; the credential component never enters the
    result.  Under dry-run [restore_state] always returns, and the other two
    return whenever the credential file decodes. *)
Theorem operation_result_characterised (self : StateManager.t)
    (source_root target_root : fs) (backup_path : string)
    (file : option backup_file) :
  let source := FilesystemAdapter.__init__ source_root (StateManager.dry_run self) in
  let backup :=
    BackupAdapter.__init__ file backup_path "r" (StateManager.dry_run self) in
  let backed_up := (StateManager.backup_state self source_root backup_path file).1 in
  let restored := (StateManager.restore_state self backup_path file target_root).1 in
  let migrated := (StateManager.migrate_state self source_root target_root).1 in
  StateManager.validate_state self source_root = forallb (present source) values ∧
  (backed_up = Ok (copy_ok source) ∨ ∃ e, backed_up = Raise e) ∧
  (migrated = Ok (copy_ok source) ∨ ∃ e, migrated = Raise e) ∧
  (restored = Ok (restore_ok backup) ∨ ∃ e, restored = Raise e) ∧
  (StateManager.dry_run self = true → restored = Ok (restore_ok backup)) ∧
  (StateManager.dry_run self = true →
   is_Some (utf8_decode (the (read_file source "/etc/shadow"))) →
   backed_up = Ok (copy_ok source) ∧ migrated = Ok (copy_ok source)).
Proof.
  cbn zeta.
  destruct (backup_state_result self source_root backup_path file) as [Hb Hb'].
  destruct (migrate_state_result self source_root target_root) as [Hm Hm'].
  destruct (restore_state_result self backup_path file target_root) as [Hr Hr'].
  repeat split; auto.
  unfold StateManager.validate_state.
  rewrite validate_fold by apply values_types. apply andb_true_l.
Qed.

(** C4.  With [dry_run] set, [write_file] and [write_directory] of a
    filesystem adapter and [save_backup] return without touching the store,
    and [backup_state], [restore_state] and [migrate_state] leave the backup
    file and the target root exactly as they found them, whether they return
    or raise.  The source root is only ever read: no operation has it as a
    store, and [validate_state] has no store at all. *)
Theorem dry_run_changes_nothing (source_root target_root : fs)
    (backup_path : string) (file : option backup_file)
    (backup : BackupAdapter.t) :
  (∀ p data mode,
     write_file p data mode (FilesystemAdapter.__init__ target_root true)
     = (Ok tt, FilesystemAdapter.__init__ target_root true)) ∧
  (∀ p data,
     write_directory p data (FilesystemAdapter.__init__ target_root true)
     = (Ok tt, FilesystemAdapter.__init__ target_root true)) ∧
  (BackupAdapter.dry_run backup = true →
   BackupAdapter.save_backup backup file = (Ok tt, file)) ∧
  (StateManager.backup_state rehearsal source_root backup_path file).2 = file ∧
  (StateManager.restore_state rehearsal backup_path file target_root).2
    = target_root ∧
  (StateManager.migrate_state rehearsal source_root target_root).2 = target_root.
Proof.
  split; [done|]. split; [done|]. split.
  { intros Hd. unfold BackupAdapter.save_backup. by rewrite Hd. }
  split; [|split].
  - unfold StateManager.backup_state. cbn [StateManager.dry_run rehearsal].
    set (source := FilesystemAdapter.__init__ source_root true).
    set (dest := BackupAdapter.__init__ file backup_path "w" true).
    assert (Hdry : BackupAdapter.dry_run dest = true) by by destruct file.
    pose proof (keeps_for_fold (λ s, BackupAdapter.dry_run s = true)
      (StateManager.copy_component source) true values
      (keeps_copy_component _ (backup_write_file_keeps (λ d, d = true))
         (backup_write_directory_keeps (λ d, d = true)) source)
      dest Hdry) as Hk.
    change (for_fold (StateManager.copy_component source) true values)
      with (StateManager.copy_components (D:=BackupAdapter.t) source) in Hk.
    destruct (StateManager.copy_components source dest) as [[success|e] dest'];
      cbn [snd] in *; [|done].
    unfold BackupAdapter.save_backup. by rewrite Hk.
  - unfold StateManager.restore_state. cbn [StateManager.dry_run rehearsal].
    set (source := BackupAdapter.__init__ file backup_path "r" true).
    pose proof (keeps_for_fold (eq (FilesystemAdapter.__init__ target_root true))
      (StateManager.restore_component source) true values
      (keeps_restore_component _ (dry_write_file_keeps target_root)
         (dry_write_directory_keeps target_root) source)
      _ eq_refl) as Hk.
    change (for_fold (StateManager.restore_component source) true values)
      with (StateManager.restore_components (D:=FilesystemAdapter.t) source) in Hk.
    destruct (StateManager.restore_components source _) as [r target].
    cbn [snd] in *. by rewrite <- Hk.
  - unfold StateManager.migrate_state. cbn [StateManager.dry_run rehearsal].
    set (source := FilesystemAdapter.__init__ source_root true).
    pose proof (keeps_for_fold (eq (FilesystemAdapter.__init__ target_root true))
      (StateManager.copy_component source) true values
      (keeps_copy_component _ (dry_write_file_keeps target_root)
         (dry_write_directory_keeps target_root) source)
      _ eq_refl) as Hk.
    change (for_fold (StateManager.copy_component source) true values)
      with (StateManager.copy_components (D:=FilesystemAdapter.t) source) in Hk.
    destruct (StateManager.copy_components source _) as [r target].
    cbn [snd] in *. by rewrite <- Hk.
Qed.




(** C8.  A backup adapter opened for reading where no file exists starts
    with an empty entry map and an empty manifest: every [exists] is false,
    every [read_file] and [read_directory] is absent, and [restore_state]
    from it returns false, without raising and without touching the target. *)
Theorem missing_backup_reads_as_empty (self : StateManager.t)
    (backup_path p : string) (dry_run : bool) (target_root : fs) :
  let backup := BackupAdapter.__init__ None backup_path "r" dry_run in
  BackupAdapter._data backup = ∅ ∧
  BackupAdapter._metadata backup = JObj [] ∧
  exists_ backup p = false ∧
  read_file backup p = None ∧
  read_directory backup p = None ∧
  StateManager.restore_state self backup_path None target_root
    = (Ok false, target_root).
Proof. cbn. repeat split; reflexivity. Qed.

(** C9 (as amended).  An empty file is treated exactly like a missing one on
    the standard path: for each required file component, the loop iteration
    of [backup_state] and [migrate_state] is the computation that writes
    nothing and sets the result to false both when the source file is empty
    and when it is absent, and neither operation then returns true.  The same
    holds for [restore_state] and the two required file components it reads
    from the backup, the configuration file and the mount table. *)
Theorem empty_required_file_is_missing {D : Type} `{!StateAdapter D}
    (self : StateManager.t) (c : StateComponent) (source_root target_root : fs)
    (backup_path : string) (file : option backup_file) (success : bool) :
  let source := FilesystemAdapter.__init__ source_root (StateManager.dry_run self) in
  let backup :=
    BackupAdapter.__init__ file backup_path "r" (StateManager.dry_run self) in
  (c ∈ [sonic_config; system_mounts; admin_auth] →
   read_file source (path c) = Some [] ∨ read_file source (path c) = None →
   StateManager.copy_component (D:=D) source success c = ret false ∧
   fails (StateManager.backup_state self source_root backup_path file).1 ∧
   fails (StateManager.migrate_state self source_root target_root).1) ∧
  (c ∈ [sonic_config; system_mounts] →
   read_file backup (path c) = Some [] ∨ read_file backup (path c) = None →
   StateManager.restore_component (D:=D) backup success c = ret false ∧
   fails (StateManager.restore_state self backup_path file target_root).1).
Proof.
  cbn zeta.
  set (source := FilesystemAdapter.__init__ source_root _).
  set (backup := BackupAdapter.__init__ file backup_path "r" _).
  split.
  - intros Hc Hread.
    assert (Hfalsy : py_bool (read_file source (path c)) = false)
      by by destruct Hread as [->| ->].
    assert (Hok : copy_ok source = false).
    { unfold copy_ok.
      rewrite !elem_of_cons, elem_of_nil in Hc.
      destruct Hc as [->|[->|[->|[]]]];
        cbn [path sonic_config system_mounts admin_auth] in Hfalsy;
        rewrite Hfalsy; by rewrite ?andb_false_r. }
    split; [|split].
    + rewrite !elem_of_cons, elem_of_nil in Hc.
      destruct Hc as [->|[->|[->|[]]]].
      * change (StateManager.copy_component source success sonic_config)
          with (StateManager.copy_file (D:=D) source (path sonic_config)
                  true success).
        unfold StateManager.copy_file. by rewrite Hfalsy.
      * change (StateManager.copy_component source success system_mounts)
          with (StateManager.copy_file (D:=D) source (path system_mounts)
                  true success).
        unfold StateManager.copy_file. by rewrite Hfalsy.
      * change (StateManager.copy_component source success admin_auth) with
          (handled <~ StateManager.handle_admin_shadow (D:=D) admin_auth source ;;
           if handled then ret success
           else StateManager.copy_file source (path admin_auth) true success).
        unfold StateManager.handle_admin_shadow, StateManager.copy_file.
        by rewrite Hfalsy.
    + destruct (backup_state_result self source_root backup_path file) as [Hb _].
      fold source in Hb. rewrite Hok in Hb. exact Hb.
    + destruct (migrate_state_result self source_root target_root) as [Hm _].
      fold source in Hm. rewrite Hok in Hm. exact Hm.
  - intros Hc Hread.
    assert (Hfalsy : py_bool (read_file backup (path c)) = false)
      by by destruct Hread as [->| ->].
    assert (Hok : restore_ok backup = false).
    { unfold restore_ok.
      rewrite !elem_of_cons, elem_of_nil in Hc.
      destruct Hc as [->|[->|[]]]; cbn [path sonic_config system_mounts] in Hfalsy;
        rewrite Hfalsy; by rewrite ?andb_false_r. }
    split.
    + rewrite !elem_of_cons, elem_of_nil in Hc.
      destruct Hc as [->|[->|[]]].
      * change (StateManager.restore_component backup success sonic_config)
          with (StateManager.copy_file (D:=D) backup (path sonic_config)
                  true success).
        unfold StateManager.copy_file. by rewrite Hfalsy.
      * change (StateManager.restore_component backup success system_mounts)
          with (StateManager.copy_file (D:=D) backup (path system_mounts)
                  true success).
        unfold StateManager.copy_file. by rewrite Hfalsy.
    + destruct (restore_state_result self backup_path file target_root) as [Hr _].
      fold backup in Hr. rewrite Hok in Hr. exact Hr.
Qed.

(** C10.  [write_file] of the backup adapter does not look at the mode: for
    any two modes the result is the same, namely the entry map with the raw
    bytes stored under the path and every other entry untouched.  The
    filesystem adapter, given the same call, records the mode on the file it
    creates. *)
Theorem backup_write_file_ignores_mode (p : string) (data : bytes)
    (mode mode' : option Z) (self : BackupAdapter.t) (m : Z) :
  let written := (write_file p data mode self).2 in
  write_file p data mode self = write_file p data mode' self ∧
  write_file p data mode self
    = (Ok tt,
       BackupAdapter.set_data (<[p := data]> (BackupAdapter._data self)) self) ∧
  read_file written p = Some data ∧
  (∀ q, q ≠ p → read_file written q = read_file self q) ∧
  (write_file "/etc/ssh/ssh_host_rsa_key" data (Some m)
     (FilesystemAdapter.__init__ None false)).2
    = FilesystemAdapter.__init__
        (Some (Dir [("etc", Dir [("ssh",
           Dir [("ssh_host_rsa_key", File data m)])])])) false.
Proof.
  cbn zeta. split; [reflexivity|]. split; [reflexivity|].
  split; [apply lookup_insert_eq|]. split; [|reflexivity].
  intros q Hq. by apply lookup_insert_ne.
Qed.

End specification.

(** ** On the example stores *)

(** C1.  Backing up the populated root and restoring into an empty one does
    not reproduce it.  The backup raises in [save_backup] and leaves a file
    without members, from which nothing is restored.  And the entries the
    backup loop had collected would not restore the SSH bundle either: the
    handler stores it under per-file keys, [restore_state] looks only for the
    key ['/etc/ssh'], finds none, restores the configuration and the home
    tree but no SSH file, and returns false. *)
Theorem backup_then_restore_loses_ssh_bundle :
  let source := FilesystemAdapter.__init__ populated_root false in
  let collected :=
    (StateManager.copy_components source
       (BackupAdapter.__init__ None "backup.tar.gz" "w" false)).2 in
  let restored :=
    StateManager.restore_components collected
      (FilesystemAdapter.__init__ empty_root false) in
  StateManager.backup_state live populated_root "backup.tar.gz" None
    = (Raise AttributeError, Some (TarGz [])) ∧
  StateManager.restore_state live "backup.tar.gz" (Some (TarGz [])) empty_root
    = (Ok false, empty_root) ∧
  read_file collected "/etc/ssh/sshd_config" = Some (b "Port 22") ∧
  read_directory collected "/etc/ssh" = None ∧
  restored.1 = Ok false ∧
  lookup_path ["etc"; "sonic"; "config_db.json"]
    (FilesystemAdapter.root restored.2)
    = Some (File (b "{}") mode_0o644) ∧
  lookup_path ["home"] (FilesystemAdapter.root restored.2)
    = lookup_path ["home"] populated_root ∧
  lookup_path ["etc"; "ssh"] (FilesystemAdapter.root restored.2) = None.
Proof. vm_compute. repeat split; reflexivity. Qed.

(** C2, as stated, fails.  With the SSH directory absent, a required
    component is missing and [migrate_state] still returns true; with every
    required component present and readable but the configuration file
    empty, [validate_state] is true and [migrate_state] returns false. *)
Lemma result_is_not_required_present :
  let no_ssh := unlink ["etc"; "ssh"] populated_root in
  let empty_config :=
    truncated ["etc"; "sonic"; "config_db.json"] populated_root in
  (required ssh_infrastructure = true ∧
   exists_ (FilesystemAdapter.__init__ no_ssh false) (path ssh_infrastructure)
     = false ∧
   (StateManager.migrate_state live no_ssh empty_root).1 = Ok true) ∧
  (StateManager.validate_state live empty_config = true ∧
   read_file (FilesystemAdapter.__init__ empty_config false) (path sonic_config)
     = Some [] ∧
   (StateManager.migrate_state live empty_config empty_root).1 = Ok false).
Proof. vm_compute. repeat split; reflexivity. Qed.

(** C3.  With the mount table missing from the source, a backup that is not
    a dry run does not return false: it raises [AttributeError] out of
    [save_backup], and the file it leaves at [backup_path] holds neither
    manifest nor entries.  The dry run of the same backup returns false and
    creates nothing. *)
Theorem backup_state_raises_in_save_backup :
  let source_root := unlink ["etc"; "fstab"] populated_root in
  exists_ (FilesystemAdapter.__init__ source_root false) "/etc/fstab" = false ∧
  StateManager.backup_state live source_root "backup.tar.gz" None
    = (Raise AttributeError, Some (TarGz [])) ∧
  BackupAdapter._data
    (BackupAdapter.__init__ (Some (TarGz [])) "backup.tar.gz" "r" false) = ∅ ∧
  StateManager.backup_state rehearsal source_root "backup.tar.gz" None
    = (Ok false, None).
Proof. vm_compute. repeat split; reflexivity. Qed.




(** C9, as stated, fails for [restore_state] and the credential component:
    a backup whose entry for ['/etc/shadow'] is empty, and which holds
    everything else, restores with result true. *)
Lemma restore_ignores_empty_admin_auth :
  read_file
    (BackupAdapter.__init__ (Some example_backup) "backup.tar.gz" "r" false)
    (path admin_auth) = Some [] ∧
  required admin_auth = true ∧
  component_type admin_auth = "file" ∧
  (StateManager.restore_state live "backup.tar.gz" (Some example_backup)
     empty_root).1 = Ok true.
Proof. vm_compute. repeat split; reflexivity. Qed.

(** C9 on the populated root with its configuration file emptied: the
    migration writes no configuration file and returns false. *)
Lemma empty_config_fails_migration :
  let source_root :=
    truncated ["etc"; "sonic"; "config_db.json"] populated_root in
  sonic_config ∈ [sonic_config; system_mounts; admin_auth] ∧
  read_file (FilesystemAdapter.__init__ source_root false) (path sonic_config)
    = Some [] ∧
  fails (StateManager.migrate_state live source_root empty_root).1.
Proof.
  cbn zeta.
  assert (Hc : sonic_config ∈ [sonic_config; system_mounts; admin_auth])
    by by left.
  split; [exact Hc|]. split; [reflexivity|].
  destruct (empty_required_file_is_missing (D:=FilesystemAdapter.t) live
              sonic_config
              (truncated ["etc"; "sonic"; "config_db.json"] populated_root)
              empty_root "backup.tar.gz" None true) as [Hcopy _].
  exact (proj2 (proj2 (Hcopy Hc (or_introl eq_refl)))).
Defined.

(** * Properties of the adapters *)

(** ** Loading a backup file *)






Section load.
Context `{Platform}.




End load.

(** ** Writing into a tree *)

Lemma alist_insert_lookup_id {A} k (v : A) l :
  alist_lookup k l = Some v → alist_insert k v l = l.
Proof.
  induction l as [|[k' v'] l IH]; cbn; [done|].
  destruct (String.eqb_spec k k') as [->|]; [by intros [= ->]|].
  intros Hl. by rewrite IH.
Qed.

Lemma alist_set_lookup_id {A} k (l : list (string * A)) :
  alist_set k (alist_lookup k l) l = l.
Proof.
  destruct (alist_lookup k l) eqn:E; cbn; [by apply alist_insert_lookup_id | done].
Qed.

Lemma mkdir_p_cons c r t :
  mkdir_p (c :: r) t
  = match t with
    | Some (File _ _) => (Raise NotADirectoryError, t)
    | Some (Dir es) =>
      let '(o, child) := mkdir_p r (alist_lookup c es) in
      (o, Some (Dir (alist_set c child es)))
    | None =>
      let '(o, child) := mkdir_p r None in
      (o, Some (Dir (alist_set c child [])))
    end.
Proof. reflexivity. Qed.

Lemma mkdir_p_raise r t :
  file_on_path r t = true → ∃ e, mkdir_p r t = (Raise e, t).
Proof.
  revert t. induction r as [|c r IH]; intros [[d m|es]|] Hf;
    try discriminate Hf; try (by eexists).
  cbn in Hf. destruct (IH _ Hf) as [e He].
  rewrite mkdir_p_cons, He. exists e. by rewrite alist_set_lookup_id.
Qed.

Lemma mkdir_p_ok r t :
  file_on_path r t = false →
  ∃ t1, mkdir_p r t = (Ok tt, t1) ∧ is_dir (lookup_path r t1) = true.
Proof.
  revert t. induction r as [|c r IH]; intros [[d m|es]|] Hf;
    try discriminate Hf; try (by eexists).
  - cbn in Hf. destruct (IH _ Hf) as (t1 & He & Hd).
    rewrite mkdir_p_cons, He. eexists. split; [done|].
    destruct t1 as [n1|]; [|by rewrite lookup_path_None in Hd].
    cbn. by rewrite alist_lookup_insert_eq.
  - destruct (IH None) as (t1 & He & Hd); [by destruct r|].
    rewrite mkdir_p_cons, He. eexists. split; [done|].
    destruct t1 as [n1|]; [|by rewrite lookup_path_None in Hd].
    cbn. by rewrite String.eqb_refl.
Qed.

Lemma mkdir_p_existing r t :
  is_dir (lookup_path r t) = true → mkdir_p r t = (Ok tt, t).
Proof.
  revert t. induction r as [|c r IH]; intros [[d m|es]|] Hd;
    try discriminate Hd; try done.
  cbn in Hd. rewrite mkdir_p_cons, (IH _ Hd).
  by rewrite alist_set_lookup_id.
Qed.

Lemma lookup_path_snoc_parent r c t :
  is_Some (lookup_path (r ++ [c]) t) → is_dir (lookup_path r t) = true.
Proof.
  revert t. induction r as [|a r IH]; intros [[d m|es]|] Hs; cbn in *;
    try (by destruct Hs); try done.
  by apply IH.
Qed.

Lemma is_dir_no_file_on_path r t :
  is_dir (lookup_path r t) = true → file_on_path r t = false.
Proof.
  revert t. induction r as [|a r IH]; intros [[d m|es]|] Hd; cbn in *;
    try done.
  by apply IH.
Qed.

(** Below an existing directory [r], [at_path] is its leaf action on the
    child. *)
Lemma at_path_child create r c leaf t :
  is_dir (lookup_path r t) = true →
  let res := leaf (lookup_path (r ++ [c]) t) in
  let out := at_path create (r ++ [c]) leaf t in
  out.1 = res.1 ∧
  (res.2 = lookup_path (r ++ [c]) t → out.2 = t) ∧
  (is_Some res.2 → lookup_path (r ++ [c]) out.2 = res.2).
Proof.
  cbn zeta. revert t. induction r as [|a r IH]; intros [[d m|es]|] Hd;
    cbn in Hd; try discriminate Hd.
  - cbn. destruct (leaf (alist_lookup c es)) as [res child]; cbn.
    split; [done|]. split.
    + intros ->. by rewrite alist_set_lookup_id.
    + intros [v ->]. cbn. by rewrite alist_lookup_insert_eq.
  - specialize (IH (alist_lookup a es) Hd). cbn.
    destruct (at_path create (r ++ [c]) leaf (alist_lookup a es)) as [o ch]; cbn in *.
    destruct IH as (H1 & H2 & H3). split; [done|]. split.
    + intros Hres. rewrite (H2 Hres). by rewrite alist_set_lookup_id.
    + intros Hs. specialize (H3 Hs). destruct ch as [v|].
      * cbn. by rewrite alist_lookup_insert_eq.
      * rewrite lookup_path_None in H3. rewrite <- H3 in Hs. by destruct Hs.
Qed.

Lemma is_prefix_snoc r c : is_prefix (r ++ [c]) r = false.
Proof. induction r as [|a r IH]; cbn; [done|]. by rewrite String.eqb_refl. Qed.

Section write_file.
Context `{Platform}.

(** The three steps of [write_file] on the tree, for a path with a parent. *)
Lemma write_steps r c data mode t :
  let q := r ++ [c] in
  let run :=
    (mkdir_p r ;;; write_bytes new_file_mode q data ;;;
     match mode with Some m => chmod q m | None => ret tt end) t in
  if file_on_path r t || is_dir (lookup_path q t)
  then ∃ e, run = (Raise e, t)
  else ∃ t', run = (Ok tt, t') ∧
       lookup_path q t'
       = Some (File data
                 (match mode, lookup_path q t with
                  | Some m, _ => m
                  | None, Some (File _ m0) => m0
                  | None, _ => new_file_mode
                  end)).
Proof.
  cbn zeta. destruct (file_on_path r t) eqn:Hf; cbn [orb].
  { destruct (mkdir_p_raise r t Hf) as [e He]. exists e. unfold bind. by rewrite He. }
  destruct (mkdir_p_ok r t Hf) as (t1 & Hmk & Hd1).
  assert (Hq1 : lookup_path (r ++ [c]) t1 = lookup_path (r ++ [c]) t).
  { replace t1 with (mkdir_p r t).2 by by rewrite Hmk.
    apply mkdir_p_frame, is_prefix_snoc. }
  destruct (is_dir (lookup_path (r ++ [c]) t)) eqn:Hdq.
  { assert (Hsame : mkdir_p r t = (Ok tt, t)).
    { apply mkdir_p_existing, (lookup_path_snoc_parent r c).
      by destruct (lookup_path (r ++ [c]) t). }
    rewrite Hsame in Hmk. injection Hmk as <-.
    unfold bind at 1. rewrite Hsame.
    pose proof (at_path_child false r c
      (λ t, match t with
            | None => (Ok tt, Some (File data new_file_mode))
            | Some (File _ m) => (Ok tt, Some (File data m))
            | Some (Dir _) => (Raise IsADirectoryError, t)
            end) t Hd1) as (W1 & W2 & _).
    cbn zeta in *. fold (write_bytes new_file_mode (r ++ [c]) data) in *.
    destruct (lookup_path (r ++ [c]) t) as [[?|es]|] eqn:El; try done.
    cbn in *. specialize (W2 eq_refl).
    unfold bind. destruct (write_bytes _ _ _ t) as [o t2]; cbn in *; subst.
    by exists IsADirectoryError. }
  unfold bind at 1. rewrite Hmk.
  pose proof (at_path_child false r c
    (λ t, match t with
          | None => (Ok tt, Some (File data new_file_mode))
          | Some (File _ m) => (Ok tt, Some (File data m))
          | Some (Dir _) => (Raise IsADirectoryError, t)
          end) t1 Hd1) as (W1 & _ & W3).
  cbn zeta in *. fold (write_bytes new_file_mode (r ++ [c]) data) in *.
  rewrite Hq1 in *.
  set (m1 := match lookup_path (r ++ [c]) t with
             | Some (File _ m0) => m0 | _ => new_file_mode end).
  assert (Hw : ∃ t2, write_bytes new_file_mode (r ++ [c]) data t1 = (Ok tt, t2)
                     ∧ lookup_path (r ++ [c]) t2 = Some (File data m1)).
  { subst m1. destruct (write_bytes _ _ _ t1) as [o t2]; cbn in *.
    destruct (lookup_path (r ++ [c]) t) as [[d0 m0|es]|]; try done; cbn in *;
      subst; eexists; (split; [done|]); by apply W3. }
  destruct Hw as (t2 & Hw & Hl2). unfold bind at 1. rewrite Hw.
  destruct mode as [m|].
  - assert (Hd2 : is_dir (lookup_path r t2) = true).
    { apply (lookup_path_snoc_parent r c). by rewrite Hl2. }
    pose proof (at_path_child false r c
      (λ t, match t with
            | None => (Raise FileNotFoundError, t)
            | Some (File d _) => (Ok tt, Some (File d m))
            | Some (Dir _) => (Ok tt, t)
            end) t2 Hd2) as (C1 & _ & C3).
    cbn zeta in *. fold (chmod (r ++ [c]) m) in *. rewrite Hl2 in *. cbn in *.
    destruct (chmod (r ++ [c]) m t2) as [o t3]; cbn in *; subst.
    eexists. split; [done|]. by apply C3.
  - exists t2. split; [done|]. rewrite Hl2. subst m1.
    by destruct (lookup_path (r ++ [c]) t) as [[?|?]|].
Qed.
End write_file.

Section fs_write.
Context `{Platform}.

Lemma fs_write_file_cases (t : fs) (p : string) (data : bytes)
    (mode : option Z) :
  let self := FilesystemAdapter.__init__ t false in
  let q := FilesystemAdapter._full_path p in
  if refuses_write q t
  then ∃ e, write_file p data mode self = (Raise e, self)
  else ∃ self',
    write_file p data mode self = (Ok tt, self') ∧
    lookup_path q (FilesystemAdapter.root self')
    = Some (File data
              (match mode, lookup_path q t with
               | Some m, _ => m
               | None, Some (File _ m0) => m0
               | None, _ => new_file_mode
               end)) ∧
    read_file self' p = Some data ∧
    exists_ self' p = true.
Proof.
  cbn zeta. cbn [write_file FilesystemAdapter_adapter read_file exists_].
  unfold FilesystemAdapter.write_file, FilesystemAdapter.read_file,
    FilesystemAdapter.exists_, FilesystemAdapter.on_root.
  cbn [FilesystemAdapter.dry_run FilesystemAdapter.__init__ FilesystemAdapter.root].
  set (q := FilesystemAdapter._full_path p).
  destruct (decide (q = [])) as [Hq|Hq].
  - rewrite Hq. unfold refuses_write, FilesystemAdapter.mkdir_parent, bind, ret.
    cbn [orb lookup_path write_bytes chmod at_path].
    destruct t as [[d0 m0|es]|]; cbn [is_dir].
    + destruct mode; eexists; repeat split.
    + by eexists.
    + destruct mode; eexists; repeat split.
  - destruct (exists_last Hq) as (r & c & Hrc). clearbody q. subst q.
    assert (Hparent : FilesystemAdapter.mkdir_parent (r ++ [c]) = mkdir_p r).
    { unfold FilesystemAdapter.mkdir_parent.
      rewrite removelast_last. by destruct r. }
    assert (Hrefuse : refuses_write (r ++ [c]) t
                      = file_on_path r t || is_dir (lookup_path (r ++ [c]) t)).
    { unfold refuses_write. rewrite removelast_last. by destruct r. }
    rewrite Hrefuse, Hparent. pose proof (write_steps r c data mode t) as Hw.
    cbn zeta in Hw.
    destruct (file_on_path r t || is_dir (lookup_path (r ++ [c]) t)).
    + destruct Hw as [e ->]. by exists e.
    + destruct Hw as (t' & -> & Hl). eexists. split; [done|].
      cbn [FilesystemAdapter.root]. rewrite Hl. by repeat split.
Qed.



End fs_write.



(** * Properties of the operations *)

(** ** Where the operations write *)

Lemma diverge_app p q r : diverge p q = true → diverge p (q ++ r) = true.
Proof.
  revert q. induction p as [|a p IH]; intros [|c q]; cbn; try done.
  destruct (String.eqb a c); [apply IH | done].
Qed.

(** Evaluate the tests on the registry's closed strings. *)
Ltac decide_tests :=
  repeat match goal with
         | |- context [bool_decide ?Q] =>
           let v := eval vm_compute in (bool_decide Q) in
           change (bool_decide Q) with v
         | |- context [py_str_bool ?o] =>
           let v := eval vm_compute in (py_str_bool o) in
           change (py_str_bool o) with v
         end; cbn iota.

Section footprint.
Context {S D : Type} `{!StateAdapter S, !StateAdapter D}.
Context (P : D → Prop) (W : string → Prop).
Hypothesis keeps_write_file :
  ∀ p data mode, W p → keeps P (write_file (A:=D) p data mode).
Hypothesis keeps_write_directory :
  ∀ p data, W p → keeps P (write_directory (A:=D) p data).

Ltac member_tac :=
  vm_compute; repeat first [apply list_elem_of_here | apply list_elem_of_further].

Ltac within_tac HW :=
  repeat first
    [ apply keeps_ret | apply keeps_raise | apply keeps_decode
    | apply keeps_encode
    | apply keeps_write_file; apply HW; member_tac
    | apply keeps_write_directory; apply HW; member_tac
    | apply keeps_bind; [|intros ?] | apply keeps_if ].


(** The loop of [backup_state] and [migrate_state] writes at these paths
    only; the SSH directory itself is listed for the standard branch, which
    the handler's return value rules out. *)
Lemma keeps_copy_components_within (source : S) :
  (∀ p, p ∈ ["/etc/sonic/config_db.json"; "/home"; "/etc/ssh";
             "/etc/ssh/sshd_config"; "/etc/ssh/sshd_config.d"]
            ++ host_keys.*1 ++
            ["/etc/fstab"; "/etc/sonic/custom-fan/fancontrol";
             "meta/shadow.admin"; "/etc/shadow"] → W p) →
  keeps P (StateManager.copy_components (D:=D) source).
Proof.
  intros HW. unfold StateManager.copy_components.
  cbn [for_fold values fmap list_fmap SONIC_STATE_COMPONENTS snd].
  unfold StateManager.copy_component, StateManager._handle_special_component,
    StateManager.handle_admin_shadow, StateManager.handle_ssh_config,
    StateManager.handle_home_directories, StateManager.standard_copy,
    StateManager.copy_file, StateManager.copy_directory.
  cbn [for_each]. decide_tests.
  within_tac HW.
  all: try (match goal with |- context [filter ?f ?l] => destruct (filter f l) end;
            within_tac HW).
  all: try (match goal with a : bool |- _ => destruct a end; within_tac HW).
Qed.
End footprint.

Section footprint_fs.
Context `{Platform}.

Lemma keeps_lookup_write_file q x p data mode :
  diverge q (FilesystemAdapter._full_path p) = true →
  keeps (λ s, lookup_path q (FilesystemAdapter.root s) = x)
    (write_file (A:=FilesystemAdapter.t) p data mode).
Proof.
  intros Hq s Hs. cbn beta. rewrite <- Hs.
  by apply write_file_frame, diverge_not_prefix.
Qed.

Lemma keeps_lookup_write_directory q x p data :
  diverge q (FilesystemAdapter._full_path p) = true →
  keeps (λ s, lookup_path q (FilesystemAdapter.root s) = x)
    (write_directory (A:=FilesystemAdapter.t) p data).
Proof.
  intros Hq s Hs. cbn beta. rewrite <- Hs. by apply write_directory_frame.
Qed.


(** [migrate_state] writes under the paths of the components and at
    ['meta/shadow.admin'] of the target root, and nowhere else: whether it
    returns or raises, every place of the target root that parts ways with
    each of them is as before. *)
Theorem migrate_state_footprint (self : StateManager.t)
    (source_root target_root : fs) (q : list string) :
  Forall (λ p, diverge q (FilesystemAdapter._full_path p) = true)
    copy_destinations →
  lookup_path q (StateManager.migrate_state self source_root target_root).2
  = lookup_path q target_root.
Proof.
  intros Hq. rewrite Forall_forall in Hq. unfold StateManager.migrate_state.
  set (source := FilesystemAdapter.__init__ source_root _).
  set (target := FilesystemAdapter.__init__ target_root _).
  assert (Hssh : ∀ name,
            diverge q (FilesystemAdapter._full_path "/etc/ssh" ++ [name]) = true).
  { intros name. apply diverge_app, Hq.
    vm_compute; repeat first [apply list_elem_of_here | apply list_elem_of_further]. }
  assert (HW : ∀ p,
    p ∈ ["/etc/sonic/config_db.json"; "/home"; "/etc/ssh";
         "/etc/ssh/sshd_config"; "/etc/ssh/sshd_config.d"]
        ++ host_keys.*1 ++
        ["/etc/fstab"; "/etc/sonic/custom-fan/fancontrol";
         "meta/shadow.admin"; "/etc/shadow"] →
    diverge q (FilesystemAdapter._full_path p) = true).
  { intros p Hp. cbn in Hp.
    repeat (apply elem_of_cons in Hp as [->|Hp]);
      try (by apply elem_of_nil in Hp);
      first [ apply Hq; vm_compute;
              repeat first [apply list_elem_of_here | apply list_elem_of_further];
              fail
            | apply Hssh ]. }
  pose proof (keeps_copy_components_within
    (λ s, lookup_path q (FilesystemAdapter.root s) = lookup_path q target_root)
    (λ p, diverge q (FilesystemAdapter._full_path p) = true)
    (keeps_lookup_write_file q _) (keeps_lookup_write_directory q _)
    source HW target eq_refl) as Hk.
  by destruct (StateManager.copy_components source target).
Qed.
End footprint_fs.


(** Migrating the populated root leaves the account database of the target
    alone: the accounts behind the migrated home directories are not part
    of the registry. *)
Lemma migrate_state_footprint_on_example :
  Forall (λ p, diverge ["etc"; "passwd"] (FilesystemAdapter._full_path p) = true)
    copy_destinations ∧
  lookup_path ["etc"; "passwd"]
    (StateManager.migrate_state live populated_root empty_root).2
  = lookup_path ["etc"; "passwd"] empty_root.
Proof.
  assert (Hq : Forall (λ p, diverge ["etc"; "passwd"]
                              (FilesystemAdapter._full_path p) = true)
                 copy_destinations).
  { vm_compute. repeat constructor. }
  split; [exact Hq|].
  exact (migrate_state_footprint live populated_root empty_root
           ["etc"; "passwd"] Hq).
Defined.

(** ** What one iteration writes *)

Section component_writes.
Context {S D : Type} `{!StateAdapter S, !StateAdapter D}.
Context (P : D → Prop) (W : string → Prop).
Hypothesis keeps_write_file :
  ∀ p data mode, W p → keeps P (write_file (A:=D) p data mode).
Hypothesis keeps_write_directory :
  ∀ p data, W p → keeps P (write_directory (A:=D) p data).

Ltac here_tac HW :=
  apply HW; cbn [app];
  repeat first [apply list_elem_of_here | apply list_elem_of_further].

Ltac writes_tac HW :=
  repeat first
    [ apply keeps_ret | apply keeps_raise | apply keeps_decode
    | apply keeps_encode
    | apply keeps_write_file; here_tac HW
    | apply keeps_write_directory; here_tac HW
    | apply keeps_bind; [|intros ?] | apply keeps_if ].

Lemma keeps_standard_copy_writes (source : S) acc c :
  W (path c) → keeps P (StateManager.standard_copy (D:=D) c source acc).
Proof.
  intros HW. unfold StateManager.standard_copy, StateManager.copy_file,
    StateManager.copy_directory.
  repeat first
    [ apply keeps_ret | apply keeps_write_file; exact HW
    | apply keeps_write_directory; exact HW
    | apply keeps_bind; [|intros ?] | apply keeps_if ].
Qed.

Lemma keeps_copy_component_writes (source : S) acc c :
  (∀ p, p ∈ copy_writes c → W p) →
  keeps P (StateManager.copy_component (D:=D) source acc c).
Proof.
  intros HW. unfold StateManager.copy_component. apply keeps_bind.
  - apply keeps_if; [|apply keeps_ret].
    unfold StateManager._handle_special_component, copy_writes in *.
    destruct (bool_decide (special_handler c = Some "admin_shadow")).
    { unfold StateManager.handle_admin_shadow. writes_tac HW.
      match goal with |- context [filter ?f ?l] => destruct (filter f l) end;
        writes_tac HW. }
    destruct (bool_decide (special_handler c = Some "ssh_config")).
    { unfold StateManager.handle_ssh_config. cbn [for_each]. writes_tac HW. }
    destruct (bool_decide (special_handler c = Some "home_directories")).
    { unfold StateManager.handle_home_directories. writes_tac HW. }
    apply keeps_ret.
  - intros handled. apply keeps_if; [apply keeps_ret|].
    apply keeps_standard_copy_writes, HW. unfold copy_writes.
    apply elem_of_app. right. apply list_elem_of_here.
Qed.


Lemma keeps_loop_writes {X} (body : bool → X → M D bool)
    (writes : X → list string) acc xs :
  (∀ a x, (∀ p, p ∈ writes x → W p) → keeps P (body a x)) →
  Forall (λ x, ∀ p, p ∈ writes x → W p) xs →
  keeps P (for_fold body acc xs).
Proof.
  intros Hbody Hxs. revert acc.
  induction Hxs as [|x xs Hx Hxs IH]; intros acc; cbn [for_fold];
    [apply keeps_ret|].
  apply keeps_bind; [by apply Hbody | intros a; apply IH].
Qed.
End component_writes.

Section loop_frames.
Context `{Platform} {S : Type} `{!StateAdapter S}.

Lemma clear_of_Forall writes q xs :
  clear_of writes q xs = true →
  Forall (λ c, ∀ p, p ∈ writes c →
               diverge q (FilesystemAdapter._full_path p) = true) xs.
Proof.
  unfold clear_of. rewrite forallb_forall, Forall_forall.
  intros Hall c Hc p Hp. apply list_elem_of_In, Hall in Hc.
  rewrite forallb_forall in Hc. by apply Hc, list_elem_of_In.
Qed.

(** A place that parts ways with everything the components [xs] may write
    is left alone by the loop over [xs]. *)
Lemma copy_loop_frame (source : S) acc xs q x :
  clear_of copy_writes q xs = true →
  keeps (λ s, lookup_path q (FilesystemAdapter.root s) = x)
    (for_fold (StateManager.copy_component source) acc xs).
Proof.
  intros Hq.
  apply (keeps_loop_writes _
           (λ p, diverge q (FilesystemAdapter._full_path p) = true) _
           copy_writes);
    [|by apply clear_of_Forall].
  intros a c. apply keeps_copy_component_writes.
  - intros p data mode. apply keeps_lookup_write_file.
  - intros p data. apply keeps_lookup_write_directory.
Qed.

End loop_frames.

(** ** Results of the operations *)

Lemma for_fold_last {St A X} (body : A → X → M St A) acc xs x s v s' :
  for_fold body acc (xs ++ [x]) s = (Ok v, s') →
  ∃ a s0, body a x s0 = (Ok v, s').
Proof.
  revert acc s. induction xs as [|y xs IH]; intros acc s; cbn [app for_fold].
  - intros Hb. apply bind_ok in Hb as (a & s0 & Hb & [= <- <-]). eauto.
  - intros Hb. apply bind_ok in Hb as (a & s0 & _ & Hb). eauto.
Qed.

Section rehearsal.
Context {S D : Type} `{!StateAdapter S, !StateAdapter D}.

(** When the loop of [backup_state] and [migrate_state] returns, the
    credential file has decoded. *)
Lemma copy_components_returns_decoded (source : S) (s s' : D) v :
  StateManager.copy_components source s = (Ok v, s') →
  is_Some (utf8_decode (the (read_file source "/etc/shadow"))).
Proof.
  unfold StateManager.copy_components.
  change values with ([sonic_config; user_data; ssh_infrastructure;
                       system_mounts; fan_control] ++ [admin_auth]).
  intros Hrun. apply for_fold_last in Hrun as (a & s0 & Hrun).
  unfold StateManager.copy_component in Hrun.
  apply bind_ok in Hrun as (handled & s1 & Hh & _).
  change (py_str_bool (special_handler admin_auth)) with true in Hh.
  cbn iota in Hh.
  unfold StateManager._handle_special_component in Hh.
  change (bool_decide (special_handler admin_auth = Some "admin_shadow"))
    with true in Hh.
  cbn iota in Hh. unfold StateManager.handle_admin_shadow in Hh.
  change (path admin_auth) with "/etc/shadow" in Hh.
  destruct (read_file source "/etc/shadow") as [[|b0 data]|]; [by eexists| |by eexists].
  change (py_bool (Some (b0 :: data))) with true in Hh. cbn iota in Hh.
  apply bind_ok in Hh as (decoded & s2 & Hd & _).
  unfold decode in Hd.
  change (the (Some (b0 :: data))) with (b0 :: data) in *.
  destruct (utf8_decode (b0 :: data)); [by eexists | done].
Qed.
End rehearsal.

Section rehearsal_fs.
Context `{Platform}.

Lemma load_backup_dry_run file backup_path d :
  BackupAdapter._data (BackupAdapter.__init__ file backup_path "r" d)
  = BackupAdapter._data (BackupAdapter.__init__ file backup_path "r" true).
Proof.
  destruct file as [[|[|m ms]]|]; try reflexivity.
  unfold BackupAdapter.__init__. change (bool_decide ("r" = "r")) with true.
  cbn iota. cbn [BackupAdapter._load_backup BackupAdapter._metadata].
  by destruct (if bool_decide _ then _ else _).
Qed.

Lemma migrate_state_rehearsal_store source_root target_root :
  (StateManager.migrate_state rehearsal source_root target_root).2 = target_root.
Proof.
  unfold StateManager.migrate_state, StateManager.copy_components.
  change (StateManager.dry_run rehearsal) with true.
  pose proof (keeps_for_fold (eq (FilesystemAdapter.__init__ target_root true))
    (StateManager.copy_component (FilesystemAdapter.__init__ source_root true))
    true values
    (keeps_copy_component _ (dry_write_file_keeps target_root)
       (dry_write_directory_keeps target_root) _)
    _ eq_refl) as Hk.
  destruct (for_fold _ true values _) as [r target].
  cbn [snd] in *. by rewrite <- Hk.
Qed.

Lemma restore_state_rehearsal_store backup_path file target_root :
  (StateManager.restore_state rehearsal backup_path file target_root).2
  = target_root.
Proof.
  unfold StateManager.restore_state, StateManager.restore_components.
  change (StateManager.dry_run rehearsal) with true.
  pose proof (keeps_for_fold (eq (FilesystemAdapter.__init__ target_root true))
    (StateManager.restore_component
       (BackupAdapter.__init__ file backup_path "r" true))
    true values
    (keeps_restore_component _ (dry_write_file_keeps target_root)
       (dry_write_directory_keeps target_root) _)
    _ eq_refl) as Hk.
  destruct (for_fold _ true values _) as [r target].
  cbn [snd] in *. by rewrite <- Hk.
Qed.

(** What a live operation that returns says about its loop. *)
Lemma migrate_state_live_returns source_root target_root v target' :
  StateManager.migrate_state live source_root target_root = (Ok v, target') →
  ∃ s', StateManager.copy_components
          (FilesystemAdapter.__init__ source_root false)
          (FilesystemAdapter.__init__ target_root false) = (Ok v, s')
        ∧ FilesystemAdapter.root s' = target'.
Proof.
  unfold StateManager.migrate_state.
  change (StateManager.dry_run live) with false.
  destruct (StateManager.copy_components _ _) as [r s'].
  intros [= -> <-]. by exists s'.
Qed.


Lemma fs_read_file_dry_run source_root d d' p :
  read_file (FilesystemAdapter.__init__ source_root d) p
  = read_file (FilesystemAdapter.__init__ source_root d') p.
Proof. reflexivity. Qed.

Lemma fs_read_directory_dry_run source_root d d' p :
  read_directory (FilesystemAdapter.__init__ source_root d) p
  = read_directory (FilesystemAdapter.__init__ source_root d') p.
Proof. reflexivity. Qed.

Lemma copy_ok_dry_run source_root d d' :
  copy_ok (FilesystemAdapter.__init__ source_root d)
  = copy_ok (FilesystemAdapter.__init__ source_root d').
Proof.
  unfold copy_ok.
  rewrite !(fs_read_file_dry_run source_root d d').
  by rewrite (fs_read_directory_dry_run source_root d d').
Qed.

Lemma restore_ok_dry_run file backup_path d :
  restore_ok (BackupAdapter.__init__ file backup_path "r" d)
  = restore_ok (BackupAdapter.__init__ file backup_path "r" true).
Proof.
  unfold restore_ok. cbn [read_file read_directory BackupAdapter_adapter].
  unfold BackupAdapter.read_file, BackupAdapter.read_directory.
  by rewrite (load_backup_dry_run file backup_path d).
Qed.

(** A rehearsal predicts the live run.  Whenever [migrate_state] or
    [restore_state] without dry-run returns a value, the same call with
    dry-run returns that value too, and leaves the target root as it
    found it. *)
Theorem rehearsal_predicts_live_result (source_root target_root : fs)
    (backup_path : string) (file : option backup_file) (v : bool)
    (target' : fs) :
  (StateManager.migrate_state live source_root target_root = (Ok v, target') →
   StateManager.migrate_state rehearsal source_root target_root
   = (Ok v, target_root)) ∧
  (StateManager.restore_state live backup_path file target_root
   = (Ok v, target') →
   StateManager.restore_state rehearsal backup_path file target_root
   = (Ok v, target_root)).
Proof.
  split; intros Hlive.
  - destruct (migrate_state_result live source_root target_root) as [Hl _].
    destruct (migrate_state_result rehearsal source_root target_root) as [_ Hr].
    pose proof (migrate_state_rehearsal_store source_root target_root) as Hs.
    apply migrate_state_live_returns in Hlive as Hloop.
    destruct Hloop as (s' & Hloop & _).
    apply copy_components_returns_decoded in Hloop.
    specialize (Hr eq_refl Hloop).
    rewrite Hlive in Hl. destruct Hl as [Hl|[e Hl]]; [|discriminate Hl].
    injection Hl as ->.
    rewrite (copy_ok_dry_run source_root _ (StateManager.dry_run live)) in Hr.
    apply injective_projections; [exact Hr | exact Hs].
  - destruct (restore_state_result live backup_path file target_root) as [Hl _].
    destruct (restore_state_result rehearsal backup_path file target_root)
      as [_ Hr].
    pose proof (restore_state_rehearsal_store backup_path file target_root) as Hs.
    specialize (Hr eq_refl).
    rewrite Hlive in Hl. destruct Hl as [Hl|[e Hl]]; [|discriminate Hl].
    injection Hl as ->.
    change (StateManager.dry_run rehearsal) with true in Hr.
    rewrite <- (restore_ok_dry_run file backup_path (StateManager.dry_run live))
      in Hr.
    apply injective_projections; [exact Hr | exact Hs].
Qed.
End rehearsal_fs.

(** A live migration of the populated root into an empty one returns true,
    and so does its rehearsal, which leaves the empty root empty. *)
Lemma rehearsal_predicts_live_result_on_example :
  let target' := (StateManager.migrate_state live populated_root empty_root).2 in
  StateManager.migrate_state live populated_root empty_root = (Ok true, target') ∧
  StateManager.migrate_state rehearsal populated_root empty_root
  = (Ok true, empty_root).
Proof.
  cbn zeta.
  assert (Hlive : StateManager.migrate_state live populated_root empty_root
                  = (Ok true,
                     (StateManager.migrate_state live populated_root empty_root).2))
    by (vm_compute; reflexivity).
  split; [exact Hlive|].
  exact (proj1 (rehearsal_predicts_live_result populated_root empty_root
                  "backup.tar.gz" None true _) Hlive).
Defined.

Section copied_and_valid.
Context `{Platform}.

Lemma read_file_exists (source : FilesystemAdapter.t) p :
  py_bool (read_file source p) = true → exists_ source p = true.
Proof.
  cbn [read_file exists_ FilesystemAdapter_adapter].
  unfold FilesystemAdapter.read_file, FilesystemAdapter.exists_.
  by destruct (lookup_path _ _) as [[?|?]|].
Qed.

Lemma read_directory_exists (source : FilesystemAdapter.t) p :
  py_bool (read_directory source p) = true → exists_ source p = true.
Proof.
  cbn [read_directory exists_ FilesystemAdapter_adapter].
  unfold FilesystemAdapter.read_directory, FilesystemAdapter.exists_.
  by destruct (lookup_path _ _) as [[?|?]|].
Qed.

Lemma forallb_values (f : StateComponent → bool) :
  forallb f values
  = f sonic_config && (f user_data && (f ssh_infrastructure &&
      (f system_mounts && (f fan_control && (f admin_auth && true))))).
Proof. reflexivity. Qed.

Lemma present_required (source : FilesystemAdapter.t) c :
  required c = true → present source c = exists_ source (path c).
Proof. intros Hr. unfold present. rewrite Hr. apply orb_false_r. Qed.

Lemma present_optional (source : FilesystemAdapter.t) c :
  required c = false → present source c = true.
Proof. intros Hr. unfold present. rewrite Hr. apply orb_true_r. Qed.

Lemma copy_ok_exists (source : FilesystemAdapter.t) :
  copy_ok source = true →
  forallb (present source) values = exists_ source "/etc/ssh".
Proof.
  unfold copy_ok. rewrite !andb_true_iff.
  intros [[[Hc Hh] Hf] Hs].
  apply read_file_exists in Hc, Hf, Hs. apply read_directory_exists in Hh.
  rewrite forallb_values.
  rewrite (present_required source sonic_config eq_refl).
  rewrite (present_required source user_data eq_refl).
  rewrite (present_required source ssh_infrastructure eq_refl).
  rewrite (present_required source system_mounts eq_refl).
  rewrite (present_optional source fan_control eq_refl).
  rewrite (present_required source admin_auth eq_refl).
  change (path sonic_config) with "/etc/sonic/config_db.json".
  change (path user_data) with "/home".
  change (path system_mounts) with "/etc/fstab".
  change (path admin_auth) with "/etc/shadow".
  change (path ssh_infrastructure) with "/etc/ssh".
  rewrite Hc, Hh, Hf, Hs. cbn [andb]. by rewrite andb_true_r.
Qed.

(** Success of a copy does not mean the source validates.  When
    [migrate_state] or [backup_state] returns true, [validate_state] of the
    same source root is true exactly when the SSH directory exists: the
    other required components were read with data, and the SSH handler
    never reports the directory missing. *)
Theorem copied_source_validates_iff_ssh (self : StateManager.t)
    (source_root target_root : fs) (backup_path : string)
    (file : option backup_file) :
  (StateManager.migrate_state self source_root target_root).1 = Ok true ∨
  (StateManager.backup_state self source_root backup_path file).1 = Ok true →
  StateManager.validate_state self source_root
  = exists_ (FilesystemAdapter.__init__ source_root (StateManager.dry_run self))
      "/etc/ssh".
Proof.
  intros Hcopied.
  assert (Hok : copy_ok (FilesystemAdapter.__init__ source_root
                           (StateManager.dry_run self)) = true).
  { destruct Hcopied as [Hm|Hb].
    - destruct (migrate_state_result self source_root target_root) as [Hr _].
      destruct Hr as [Hr|[e Hr]]; rewrite Hr in Hm; [|discriminate Hm].
      injection Hm as Hm. exact Hm.
    - destruct (backup_state_result self source_root backup_path file) as [Hr _].
      destruct Hr as [Hr|[e Hr]]; rewrite Hr in Hb; [|discriminate Hb].
      injection Hb as Hb. exact Hb. }
  unfold StateManager.validate_state.
  rewrite validate_fold by apply values_types.
  rewrite andb_true_l. by apply copy_ok_exists.
Qed.
End copied_and_valid.

(** The populated root without its SSH directory migrates with result true
    and does not validate. *)
Lemma copied_source_validates_iff_ssh_on_example :
  let source_root := unlink ["etc"; "ssh"] populated_root in
  ((StateManager.migrate_state live source_root empty_root).1 = Ok true ∨
   (StateManager.backup_state live source_root "backup.tar.gz" None).1 = Ok true) ∧
  StateManager.validate_state live source_root = false ∧
  StateManager.validate_state live source_root
  = exists_ (FilesystemAdapter.__init__ source_root false) "/etc/ssh".
Proof.
  cbn zeta.
  assert (Hcopied :
    (StateManager.migrate_state live (unlink ["etc"; "ssh"] populated_root)
       empty_root).1 = Ok true ∨
    (StateManager.backup_state live (unlink ["etc"; "ssh"] populated_root)
       "backup.tar.gz" None).1 = Ok true)
    by (left; vm_compute; reflexivity).
  split; [exact Hcopied|]. split; [vm_compute; reflexivity|].
  exact (copied_source_validates_iff_ssh live
           (unlink ["etc"; "ssh"] populated_root) empty_root
           "backup.tar.gz" None Hcopied).
Defined.

(** ** What a migration delivers *)

Lemma for_fold_app_ok {St A X} (body : A → X → M St A) acc xs zs s v s' :
  for_fold body acc (xs ++ zs) s = (Ok v, s') →
  ∃ a s0, for_fold body acc xs s = (Ok a, s0) ∧ for_fold body a zs s0 = (Ok v, s').
Proof.
  revert acc s. induction xs as [|x xs IH]; intros acc s; cbn [app for_fold].
  - intros Hz. by exists acc, s.
  - intros Hb. apply bind_ok in Hb as (a & s0 & Hx & Hb).
    destruct (IH _ _ Hb) as (a' & s1 & Hxs & Hzs).
    exists a', s1. split; [|done]. unfold bind. by rewrite Hx.
Qed.

Lemma for_fold_cons_ok {St A X} (body : A → X → M St A) acc x xs s v s' :
  for_fold body acc (x :: xs) s = (Ok v, s') →
  ∃ a s0, body acc x s = (Ok a, s0) ∧ for_fold body a xs s0 = (Ok v, s').
Proof. cbn [for_fold]. apply bind_ok. Qed.

Section delivered.
Context `{Platform}.

Lemma fs_write_file_returns p data mode self self' :
  FilesystemAdapter.dry_run self = false →
  write_file p data mode self = (Ok tt, self') →
  FilesystemAdapter.dry_run self' = false ∧
  lookup_path (FilesystemAdapter._full_path p) (FilesystemAdapter.root self')
  = Some (File data
            (match mode, lookup_path (FilesystemAdapter._full_path p)
                           (FilesystemAdapter.root self) with
             | Some m, _ => m
             | None, Some (File _ m0) => m0
             | None, _ => new_file_mode
             end)).
Proof.
  intros Hdry Hw. destruct self as [t d]. cbn in Hdry. subst d.
  pose proof (fs_write_file_cases t p data mode) as Hc. cbn zeta in Hc.
  destruct (refuses_write _ t).
  - destruct Hc as [e He].
    change (FilesystemAdapter.__init__ t false)
      with {| FilesystemAdapter.root := t; FilesystemAdapter.dry_run := false |} in He.
    rewrite He in Hw. discriminate Hw.
  - destruct Hc as (self'' & He & Hl & _).
    change (FilesystemAdapter.__init__ t false)
      with {| FilesystemAdapter.root := t; FilesystemAdapter.dry_run := false |} in He.
    rewrite He in Hw. injection Hw as <-. split; [|exact Hl].
    pose proof (write_file_dry_run p data mode
      {| FilesystemAdapter.root := t; FilesystemAdapter.dry_run := false |}) as Hd.
    cbn [write_file FilesystemAdapter_adapter] in He. by rewrite He in Hd.
Qed.
End delivered.

Lemma keeps_run {St A} (P : St → Prop) (m : M St A) s r s' :
  keeps P m → m s = (r, s') → P s → P s'.
Proof. intros Hk Hm Hs. specialize (Hk s Hs). by rewrite Hm in Hk. Qed.

Ltac frame_tac :=
  repeat first
    [ apply keeps_ret | apply keeps_raise | apply keeps_decode
    | apply keeps_encode
    | apply keeps_lookup_write_file; vm_compute; reflexivity
    | apply keeps_lookup_write_directory; vm_compute; reflexivity
    | apply keeps_bind; [|intros ?] | apply keeps_if ].

Section delivered_files.
Context `{Platform} {S : Type} `{!StateAdapter S}.

Lemma copy_loop_dry_run (source : S) xs acc s :
  FilesystemAdapter.dry_run
    (for_fold (StateManager.copy_component source) acc xs s).2
  = FilesystemAdapter.dry_run s.
Proof.
  apply (keeps_for_fold (λ s', FilesystemAdapter.dry_run s' = FilesystemAdapter.dry_run s));
    [|done].
  intros a x. apply keeps_copy_component.
  - intros p data mode s' Hs. cbn beta. rewrite <- Hs. apply write_file_dry_run.
  - intros p data s' Hs. cbn beta. rewrite <- Hs. apply write_directory_dry_run.
Qed.

(** The standard copy of a file component that has data, when it returns,
    has written the data at the component's path. *)
Lemma copy_file_delivered (source : S) p req acc s v s' :
  FilesystemAdapter.dry_run s = false →
  py_bool (read_file source p) = true →
  StateManager.copy_file source p req acc s = (Ok v, s') →
  lookup_path (FilesystemAdapter._full_path p) (FilesystemAdapter.root s')
  = Some (File (the (read_file source p))
            (match lookup_path (FilesystemAdapter._full_path p)
                     (FilesystemAdapter.root s) with
             | Some (File _ m0) => m0
             | _ => new_file_mode
             end)).
Proof.
  intros Hdry Hb. unfold StateManager.copy_file. rewrite Hb.
  intros Hrun. apply bind_ok in Hrun as ([] & s1 & Hw & [= _ <-]).
  by apply (fs_write_file_returns _ _ None) in Hw as [_ Hw].
Qed.
End delivered_files.

Section delivered_loop.
Context `{Platform} {S : Type} `{!StateAdapter S}.

Lemma copy_component_file_delivered (source : S) xs c ys target0 v s' :
  special_handler c = None → component_type c = "file" →
  FilesystemAdapter.dry_run target0 = false →
  for_fold (StateManager.copy_component source) true (xs ++ c :: ys) target0
  = (Ok v, s') →
  (∀ x acc, keeps (λ s, lookup_path (FilesystemAdapter._full_path (path c))
                       (FilesystemAdapter.root s) = x)
              (for_fold (StateManager.copy_component source) acc xs)) →
  (∀ x acc, keeps (λ s, lookup_path (FilesystemAdapter._full_path (path c))
                       (FilesystemAdapter.root s) = x)
              (for_fold (StateManager.copy_component source) acc ys)) →
  py_bool (read_file source (path c)) = true →
  lookup_path (FilesystemAdapter._full_path (path c)) (FilesystemAdapter.root s')
  = written (the (read_file source (path c)))
      (lookup_path (FilesystemAdapter._full_path (path c))
         (FilesystemAdapter.root target0)).
Proof.
  intros Hh Hty Hdry Hrun Hpre Hsuf Hb.
  apply for_fold_app_ok in Hrun as (a & s0 & Hxs & Hrun).
  apply for_fold_cons_ok in Hrun as (a1 & s1 & Hstep & Hys).
  assert (Hd0 : FilesystemAdapter.dry_run s0 = false).
  { rewrite <- Hdry, <- (copy_loop_dry_run source xs true target0). by rewrite Hxs. }
  pose proof (keeps_run _ _ _ _ _ (Hpre _ true) Hxs eq_refl) as Hl0.
  unfold StateManager.copy_component in Hstep. rewrite Hh in Hstep.
  change (py_str_bool None) with false in Hstep. cbn iota in Hstep.
  apply bind_ok in Hstep as (h & s0' & [= <- <-] & Hstep).
  cbn iota in Hstep. unfold StateManager.standard_copy in Hstep.
  rewrite Hty in Hstep. change (bool_decide ("file" = "file")) with true in Hstep.
  cbn iota in Hstep.
  apply (copy_file_delivered _ _ _ _ _ _ _ Hd0 Hb) in Hstep.
  rewrite Hl0 in Hstep.
  exact (keeps_run _ _ _ _ _ (Hsuf _ a1) Hys Hstep).
Qed.

Lemma copy_components_delivers (source : S) target0 v s' :
  FilesystemAdapter.dry_run target0 = false →
  StateManager.copy_components source target0 = (Ok v, s') →
  Forall (λ p, py_bool (read_file source p) = true →
               lookup_path (FilesystemAdapter._full_path p)
                 (FilesystemAdapter.root s')
               = written (the (read_file source p))
                   (lookup_path (FilesystemAdapter._full_path p)
                      (FilesystemAdapter.root target0)))
    ["/etc/sonic/config_db.json"; "/etc/fstab";
     "/etc/sonic/custom-fan/fancontrol"].
Proof.
  intros Hdry Hrun. unfold StateManager.copy_components in Hrun.
  rewrite !Forall_cons, Forall_nil. split; [|split; [|split; [|done]]].
  - apply (copy_component_file_delivered source [] sonic_config
             [user_data; ssh_infrastructure; system_mounts; fan_control; admin_auth]
             target0 v s' eq_refl eq_refl Hdry Hrun).
    + intros x acc. apply copy_loop_frame. vm_compute. reflexivity.
    + intros x acc. apply copy_loop_frame. vm_compute. reflexivity.
  - apply (copy_component_file_delivered source
             [sonic_config; user_data; ssh_infrastructure] system_mounts
             [fan_control; admin_auth]
             target0 v s' eq_refl eq_refl Hdry Hrun).
    + intros x acc. apply copy_loop_frame. vm_compute. reflexivity.
    + intros x acc. apply copy_loop_frame. vm_compute. reflexivity.
  - apply (copy_component_file_delivered source
             [sonic_config; user_data; ssh_infrastructure; system_mounts]
             fan_control [admin_auth]
             target0 v s' eq_refl eq_refl Hdry Hrun).
    + intros x acc. apply copy_loop_frame. vm_compute. reflexivity.
    + intros x acc. apply copy_loop_frame. vm_compute. reflexivity.
Qed.

Lemma handle_ssh_config_returns {D : Type} `{!StateAdapter D} c (source : S)
    (s s' : D) h :
  StateManager.handle_ssh_config c source s = (Ok h, s') → h = true.
Proof.
  unfold StateManager.handle_ssh_config. intros Hrun.
  apply bind_ok in Hrun as ([] & s1 & _ & Hrun).
  apply bind_ok in Hrun as ([] & s2 & _ & Hrun).
  by apply bind_ok in Hrun as ([] & s3 & _ & [= <- _]).
Qed.

Lemma handle_ssh_config_sshd_config (source : S) s s' :
  FilesystemAdapter.dry_run s = false →
  StateManager.handle_ssh_config ssh_infrastructure source s = (Ok true, s') →
  py_bool (read_file source "/etc/ssh/sshd_config") = true →
  lookup_path (FilesystemAdapter._full_path "/etc/ssh/sshd_config")
    (FilesystemAdapter.root s')
  = written (the (read_file source "/etc/ssh/sshd_config"))
      (lookup_path (FilesystemAdapter._full_path "/etc/ssh/sshd_config")
         (FilesystemAdapter.root s)).
Proof.
  intros Hdry Hrun Hb. unfold StateManager.handle_ssh_config in Hrun.
  change (path ssh_infrastructure +:+ "/sshd_config")
    with "/etc/ssh/sshd_config" in Hrun.
  rewrite Hb in Hrun.
  apply bind_ok in Hrun as ([] & s1 & Hw & Hrun).
  apply (fs_write_file_returns _ _ None _ _ Hdry) in Hw as [_ Hw].
  refine (keeps_run
    (λ st, lookup_path (FilesystemAdapter._full_path "/etc/ssh/sshd_config")
             (FilesystemAdapter.root st) = _) _ _ _ _ _ Hrun Hw).
  cbn [for_each]. frame_tac.
Qed.

Lemma copy_components_delivers_ssh (source : S) target0 v s' :
  FilesystemAdapter.dry_run target0 = false →
  StateManager.copy_components source target0 = (Ok v, s') →
  (py_bool (read_file source "/etc/ssh/sshd_config") = true →
   lookup_path (FilesystemAdapter._full_path "/etc/ssh/sshd_config")
     (FilesystemAdapter.root s')
   = written (the (read_file source "/etc/ssh/sshd_config"))
       (lookup_path (FilesystemAdapter._full_path "/etc/ssh/sshd_config")
          (FilesystemAdapter.root target0))) ∧
  Forall (λ '(key_path, mode),
            py_bool (read_file source key_path) = true →
            lookup_path (FilesystemAdapter._full_path key_path)
              (FilesystemAdapter.root s')
            = Some (File (the (read_file source key_path)) mode))
    host_keys.
Proof.
  intros Hdry Hrun. unfold StateManager.copy_components in Hrun.
  change values with ([sonic_config; user_data] ++ ssh_infrastructure
                      :: [system_mounts; fan_control; admin_auth]) in Hrun.
  apply for_fold_app_ok in Hrun as (a & s0 & Hxs & Hrun).
  apply for_fold_cons_ok in Hrun as (a1 & s1 & Hstep & Hys).
  assert (Hd0 : FilesystemAdapter.dry_run s0 = false).
  { rewrite <- Hdry,
      <- (copy_loop_dry_run source [sonic_config; user_data] true target0).
    by rewrite Hxs. }
  unfold StateManager.copy_component in Hstep.
  change (py_str_bool (special_handler ssh_infrastructure)) with true in Hstep.
  cbn iota in Hstep.
  apply bind_ok in Hstep as (h & sh & Hh & Hstep).
  unfold StateManager._handle_special_component in Hh.
  change (bool_decide (special_handler ssh_infrastructure = Some "admin_shadow"))
    with false in Hh.
  change (bool_decide (special_handler ssh_infrastructure = Some "ssh_config"))
    with true in Hh.
  cbn iota in Hh.
  pose proof (handle_ssh_config_returns _ _ _ _ _ Hh) as ->.
  cbn iota in Hstep. injection Hstep as _ <-.
  assert (Hsuf : ∀ x acc,
    (∀ p, p ∈ "/etc/ssh/sshd_config" :: host_keys.*1 →
       keeps (λ s, lookup_path (FilesystemAdapter._full_path p)
                     (FilesystemAdapter.root s) = x)
         (for_fold (StateManager.copy_component source) acc
            [system_mounts; fan_control; admin_auth]))).
  { intros x acc p Hp. cbn in Hp.
    repeat (apply elem_of_cons in Hp as [->|Hp]);
      try (by apply elem_of_nil in Hp);
      apply copy_loop_frame; vm_compute; reflexivity. }
  split.
  - intros Hb.
    pose proof (handle_ssh_config_sshd_config source s0 sh Hd0 Hh Hb) as Hl.
    assert (Hl0 : lookup_path (FilesystemAdapter._full_path "/etc/ssh/sshd_config")
                    (FilesystemAdapter.root s0)
                  = lookup_path (FilesystemAdapter._full_path "/etc/ssh/sshd_config")
                      (FilesystemAdapter.root target0)).
    { refine (keeps_run
        (λ st, lookup_path (FilesystemAdapter._full_path "/etc/ssh/sshd_config")
                 (FilesystemAdapter.root st) = _) _ _ _ _ _ Hxs eq_refl).
      apply copy_loop_frame. vm_compute. reflexivity. }
    rewrite Hl0 in Hl.
    refine (keeps_run _ _ _ _ _ (Hsuf _ a1 _ _) Hys Hl). by left.
  - pose proof (handle_ssh_config_keys source s0 sh Hd0 Hh) as Hkeys.
    unfold host_keys. rewrite !Forall_cons, Forall_nil in Hkeys |- *.
    destruct Hkeys as (K1 & K2 & K3 & K4 & K5 & K6 & _).
    repeat split; intros Hb;
      [ specialize (K1 Hb) | specialize (K2 Hb) | specialize (K3 Hb)
      | specialize (K4 Hb) | specialize (K5 Hb) | specialize (K6 Hb) ];
      (refine (keeps_run _ _ _ _ _ (Hsuf _ a1 _ _) Hys _); [|eassumption]);
      cbn; rewrite !elem_of_cons; auto 10.
Qed.

End delivered_loop.

Section delivered_restore.
Context `{Platform} {S : Type} `{!StateAdapter S}.



End delivered_restore.

Section delivered_operations.
Context `{Platform}.

(** A migration that returns has copied the files.  For the configuration
    file, the SSH daemon configuration, the mount table and the fan
    configuration: if the source holds data for it, the target root holds
    the same bytes at the same path afterwards, with the permission bits of
    the file that was there before, or the default for a new file (those of
    the source are not carried over).  For each host key the source holds
    data for, the target holds the same bytes with the handler's mode. *)
Theorem migrate_state_delivers_files (source_root target_root target' : fs)
    (v : bool) :
  StateManager.migrate_state live source_root target_root = (Ok v, target') →
  let source := FilesystemAdapter.__init__ source_root false in
  Forall (λ p, py_bool (read_file source p) = true →
               lookup_path (FilesystemAdapter._full_path p) target'
               = written (the (read_file source p))
                   (lookup_path (FilesystemAdapter._full_path p) target_root))
    ["/etc/sonic/config_db.json"; "/etc/ssh/sshd_config"; "/etc/fstab";
     "/etc/sonic/custom-fan/fancontrol"] ∧
  Forall (λ '(key_path, mode),
            py_bool (read_file source key_path) = true →
            lookup_path (FilesystemAdapter._full_path key_path) target'
            = Some (File (the (read_file source key_path)) mode))
    host_keys.
Proof.
  intros Hrun. cbn zeta.
  apply migrate_state_live_returns in Hrun as (s' & E & <-).
  pose proof (copy_components_delivers _
    (FilesystemAdapter.__init__ target_root false) _ _ eq_refl E) as Hfiles.
  pose proof (copy_components_delivers_ssh _
    (FilesystemAdapter.__init__ target_root false) _ _ eq_refl E) as [Hcfg Hkeys].
  split; [|exact Hkeys].
  rewrite !Forall_cons, Forall_nil in Hfiles.
  destruct Hfiles as (H1 & H2 & H3 & _).
  repeat apply Forall_cons_2; [exact H1|exact Hcfg|exact H2|exact H3|].
  apply Forall_nil_2.
Qed.


End delivered_operations.

(** The migration of the populated root into an empty one. *)
Lemma migrate_state_delivers_files_on_example :
  let target' := (StateManager.migrate_state live populated_root empty_root).2 in
  let source := FilesystemAdapter.__init__ populated_root false in
  StateManager.migrate_state live populated_root empty_root = (Ok true, target') ∧
  Forall (λ p, py_bool (read_file source p) = true →
               lookup_path (FilesystemAdapter._full_path p) target'
               = written (the (read_file source p))
                   (lookup_path (FilesystemAdapter._full_path p) empty_root))
    ["/etc/sonic/config_db.json"; "/etc/ssh/sshd_config"; "/etc/fstab";
     "/etc/sonic/custom-fan/fancontrol"] ∧
  Forall (λ '(key_path, mode),
            py_bool (read_file source key_path) = true →
            lookup_path (FilesystemAdapter._full_path key_path) target'
            = Some (File (the (read_file source key_path)) mode))
    host_keys.
Proof.
  cbn zeta.
  assert (Hlive : StateManager.migrate_state live populated_root empty_root
                  = (Ok true,
                     (StateManager.migrate_state live populated_root empty_root).2))
    by (vm_compute; reflexivity).
  split; [exact Hlive|].
  exact (migrate_state_delivers_files populated_root empty_root _ true Hlive).
Defined.



(** ** Directory trees *)










Section delivered_directories.
Context `{Platform}.

End delivered_directories.

Section delivered_directories_loop.
Context `{Platform} {S : Type} `{!StateAdapter S}.




End delivered_directories_loop.

Section delivered_directories_operations.
Context `{Platform}.


End delivered_directories_operations.



(** * Properties of the command line *)

Lemma init_usable env dry_run :
  StateManager.__init__ env dry_run
  = if usable env dry_run then Ok {| StateManager.dry_run := dry_run |}
    else if negb dry_run && negb (geteuid env =? 0)%Z
    then Raise PermissionError else Raise RuntimeError.
Proof.
  unfold StateManager.__init__, StateManager.validate_environment, usable.
  cbn [StateManager.dry_run forallb].
  destruct dry_run, (geteuid env =? 0)%Z, (which env "tar"),
    (which env "date"), (which env "hostname"); reflexivity.
Qed.

Section command_line.
Context `{Platform}.

Lemma backup_state_live_outcome source_root backup_path file :
  ∃ e, (StateManager.backup_state live source_root backup_path file).1 = Raise e.
Proof.
  unfold StateManager.backup_state, StateManager.copy_components.
  change (StateManager.dry_run live) with false.
  assert (Hb0 : BackupAdapter.dry_run
                  (BackupAdapter.__init__ file backup_path "w" false) = false)
    by by destruct file.
  pose proof (keeps_for_fold (λ s, BackupAdapter.dry_run s = false)
    (StateManager.copy_component (FilesystemAdapter.__init__ source_root false))
    true values
    (keeps_copy_component _ (backup_write_file_keeps (λ d, d = false))
       (backup_write_directory_keeps (λ d, d = false)) _)
    _ Hb0) as Hk.
  destruct (for_fold _ true values _) as [[success|e] dest'];
    cbn [snd] in Hk; [|by eexists].
  unfold BackupAdapter.save_backup. rewrite Hk. by eexists.
Qed.

Lemma backup_state_rehearsal_store source_root backup_path file :
  (StateManager.backup_state rehearsal source_root backup_path file).2 = file.
Proof.
  unfold StateManager.backup_state, StateManager.copy_components.
  change (StateManager.dry_run rehearsal) with true.
  assert (Hdry : BackupAdapter.dry_run
                   (BackupAdapter.__init__ file backup_path "w" true) = true)
    by by destruct file.
  pose proof (keeps_for_fold (λ s, BackupAdapter.dry_run s = true)
    (StateManager.copy_component (FilesystemAdapter.__init__ source_root true))
    true values
    (keeps_copy_component _ (backup_write_file_keeps (λ d, d = true))
       (backup_write_directory_keeps (λ d, d = true)) _)
    _ Hdry) as Hk.
  destruct (for_fold _ true values _) as [[success|e] dest'];
    cbn [snd] in *; [|done].
  unfold BackupAdapter.save_backup. by rewrite Hk.
Qed.

(** The [backup] subcommand without [--dry-run] never succeeds: whatever
    the environment, the source root and the file at the output path, the
    script ends with status 1. *)
Theorem main_live_backup_exits_1 (env : environment) (source : fs)
    (output : string) (file : option backup_file) :
  exit_status
    (main env {| args_dry_run := false;
                 args_command := Some (Backup source output file) |}).1
  = 1%Z.
Proof.
  unfold main. cbn [args_command args_dry_run]. rewrite init_usable.
  destruct (usable env false).
  - cbn [dispatch].
    destruct (backup_state_live_outcome source output file) as [e He].
    change {| StateManager.dry_run := false |} with live.
    destruct (StateManager.backup_state live source output file) as [r file'].
    cbn [fst] in He. by subst r.
  - by destruct (negb false && _).
Qed.

(** With [--dry-run] the script changes nothing: whatever the subcommand
    and the environment, and whether [main] returns or an exception leaves
    it, the roots and the backup file are as they were. *)
Theorem main_dry_run_changes_nothing (env : environment) (c : command) :
  (main env {| args_dry_run := true; args_command := Some c |}).2 = Some c.
Proof.
  unfold main. cbn [args_command args_dry_run]. rewrite init_usable.
  destruct (usable env true); [|done].
  change {| StateManager.dry_run := true |} with rehearsal.
  assert (Hc : (dispatch rehearsal c).2 = c).
  { destruct c as [source output file|input file target|source target|source];
      cbn [dispatch].
    - pose proof (backup_state_rehearsal_store source output file) as Hs.
      destruct (StateManager.backup_state _ _ _ _). cbn in *. by subst.
    - pose proof (restore_state_rehearsal_store input file target) as Hs.
      destruct (StateManager.restore_state _ _ _ _). cbn in *. by subst.
    - pose proof (migrate_state_rehearsal_store source target) as Hs.
      destruct (StateManager.migrate_state _ _ _). cbn in *. by subst.
    - done. }
  destruct (dispatch rehearsal c) as [[success|e] c']; cbn in *; by subst.
Qed.

(** The [validate] subcommand ends with status 0 exactly when the
    environment passes [validate_environment] (the three tools are found,
    and the user is root unless [--dry-run] is given) and every required
    component exists in the source root.  It never changes anything. *)
Theorem main_validate_exit_status (env : environment) (dry_run : bool)
    (source : fs) :
  let r := main env {| args_dry_run := dry_run;
                       args_command := Some (Validate source) |} in
  (exit_status r.1 = 0%Z ↔
   usable env dry_run = true ∧
   ∀ c, c ∈ values → required c = true →
        exists_ (FilesystemAdapter.__init__ source dry_run) (path c) = true) ∧
  r.2 = Some (Validate source).
Proof.
  cbn zeta. unfold main. cbn [args_command args_dry_run]. rewrite init_usable.
  destruct (usable env dry_run).
  - cbn [dispatch fst snd]. split; [|done].
    unfold StateManager.validate_state. cbn [StateManager.dry_run].
    rewrite validate_fold by apply values_types. rewrite andb_true_l.
    destruct (forallb _ values) eqn:E; cbn [exit_status].
    + split; [intros _|done]. split; [done|].
      rewrite forallb_forall in E. intros c Hc Hreq.
      apply list_elem_of_In, E in Hc. unfold present in Hc.
      rewrite Hreq in Hc. by rewrite orb_false_r in Hc.
    + split; [done|]. intros [_ Hall]. exfalso.
      apply not_true_iff_false in E. apply E. apply forallb_forall.
      intros c Hc. apply list_elem_of_In in Hc. unfold present.
      destruct (required c) eqn:Hreq; [|by rewrite orb_true_r].
      by rewrite (Hall c Hc Hreq).
  - split; [|by destruct (negb dry_run && _)].
    destruct (negb dry_run && _); cbn; split; try done; by intros [? _].
Qed.

(** An unusable environment stops every subcommand before anything is
    read or written: the exception of [validate_environment] leaves
    [main] uncaught ([PermissionError] for a live run by a user who is not
    root, [RuntimeError] for a missing tool otherwise), and the stores are
    as they were.  Without a subcommand [main] returns 1 whatever the
    environment. *)
Theorem main_unusable_environment (env : environment) (dry_run : bool)
    (c : command) :
  main env {| args_dry_run := dry_run; args_command := None |} = (Ok 1%Z, None) ∧
  (usable env dry_run = false →
   main env {| args_dry_run := dry_run; args_command := Some c |}
   = (Raise (if negb dry_run && negb (geteuid env =? 0)%Z
             then PermissionError else RuntimeError),
      Some c)).
Proof.
  split; [done|]. intros Hu. unfold main. cbn [args_command args_dry_run].
  rewrite init_usable, Hu. by destruct (negb dry_run && _).
Qed.
End command_line.
